(** * Interactive3DWidget: a model of [src/components/Interactive3DWidget.jsx]

    The widget is a React component that draws a textured cube with
    three.js, lets the user rotate it by dragging, spins it at a speed
    chosen on a slider, and falls back to a static view when the browser
    has no WebGL.

    JavaScript numbers are IEEE 754 binary64 values: they are modelled by
    Rocq's primitive [float], whose operations are the binary64 ones
    (round to nearest, ties to even).  The component's mutable variables
    (React state, refs, the variables closed over by the mount effect, the
    DOM container, the host's timer and frame queues) are the fields of one
    [World] record, threaded through the handlers. *)

From Stdlib Require Import Floats ZArith List String Ascii Bool Lia.
From Stdlib Require Import DecimalString.
Import ListNotations.

(* Decimal literals denote the nearest binary64 number, as in JavaScript. *)
Set Warnings "-inexact-float".

(* ================================================================== *)
(** ** JavaScript values and abrupt completion *)

Module Js.

(** The result of evaluating an expression: a value, or a thrown
    exception (the thrown value itself is never inspected by the widget,
    whose only handler is [catch { return false; }]). *)
Inductive completion (A : Type) : Type :=
| Normal (a : A)
| Throw.
Arguments Normal {A} a.
Arguments Throw {A}.

Definition ret {A} (a : A) : completion A := Normal a.

Definition bind {A B} (c : completion A) (k : A -> completion B) : completion B :=
  match c with
  | Normal a => k a
  | Throw => Throw
  end.

(** [try { body } catch { handler }] *)
Definition try_catch {A} (body : completion A) (handler : completion A) : completion A :=
  match body with
  | Normal a => Normal a
  | Throw => handler
  end.

(** JavaScript values, as far as the capability probe tells them apart:
    the primitives, and references to objects, named by their class. *)
Inductive value : Type :=
| Undefined
| Null
| Bool (b : bool)
| Num (n : float)
| Str (s : string)
| Object (class : string).

(** ToBoolean: [undefined], [null], [false], the zeros, NaN and the empty
    string are falsy; everything else, every object included, is truthy. *)
Definition truthy (v : value) : bool :=
  match v with
  | Undefined | Null => false
  | Bool b => b
  | Num n => negb (orb (PrimFloat.eqb n 0) (PrimFloat.is_nan n))
  | Str s => negb (String.eqb s EmptyString)
  | Object _ => true
  end.

(** [a && b]: [b] is evaluated only when [a] is truthy. *)
Definition and_then (a : value) (b : completion value) : completion value :=
  if truthy a then b else Normal a.

(** [a || b]: [b] is evaluated only when [a] is falsy. *)
Definition or_else (a : value) (b : completion value) : completion value :=
  if truthy a then Normal a else b.

End Js.

Declare Scope js_scope.
Delimit Scope js_scope with js.
Notation "x <- c ;; k" := (Js.bind c (fun x => k))
  (at level 61, c at next level, right associativity) : js_scope.

(* ================================================================== *)
(** ** The host environment the component runs in *)

Module Host.

(** A canvas element, as far as the probe uses it: [getContext(name)]
    answers a context object or [null], or throws. *)
Record Canvas : Type := mkCanvas {
  getContext : string -> Js.completion Js.value
}.

(** What the browser provides at mount.  [createElement tag] is
    [document.createElement(tag)]; [WebGLRenderingContext] is the read of
    [window.WebGLRenderingContext] (a reference error when there is no
    [window]); the last three fields are the numbers the mount effect
    reads. *)
Record t : Type := mkHost {
  createElement : string -> Js.completion Canvas;
  WebGLRenderingContext : Js.completion Js.value;
  devicePixelRatio : float;
  initialWidth : float;
  initialHeight : float
}.

End Host.

(* ================================================================== *)
(** ** The capability probe (lines 5-16) *)

Local Open Scope string_scope.

Definition isWebGLAvailable (host : Host.t) : Js.completion bool :=
  Js.try_catch
    (canvas <- Host.createElement host "canvas" ;;
     marker <- Host.WebGLRenderingContext host ;;
     ctx <- Js.and_then marker
              (webgl <- Host.getContext canvas "webgl" ;;
               Js.or_else webgl (Host.getContext canvas "experimental-webgl")) ;;
     Js.ret (Js.truthy ctx))%js
    (Js.ret false).

(* ================================================================== *)
(** ** The two number built-ins the component calls

    [parseFloat] (line 192) and [Number.prototype.toFixed] (line 256) are
    ECMAScript built-ins; they are modelled from the language
    specification, over the exact value of a binary64 number. *)

Module Number.

Local Open Scope Z_scope.

(** *** Decimal literal to binary64, correctly rounded *)

(** The binary64 number nearest to [(-1)^neg * m * 10^e10], for [0 <= m].
    A negative power of ten is divided out with 64 extra bits of
    quotient and a sticky bit for the remainder, which leaves the
    rounding of [binary_normalize] (to nearest, ties to even) exact. *)
Definition of_decimal (neg : bool) (m e10 : Z) : float :=
  let signed (n : Z) := if neg then - n else n in
  if m =? 0 then (if neg then PrimFloat.neg_zero else PrimFloat.zero)
  else if 0 <=? e10 then
    SF2Prim (binary_normalize prec emax (signed (m * 10 ^ e10)) 0 neg)
  else
    let d := 10 ^ (- e10) in
    let p := 64 + Z.log2 d in
    let q := (m * 2 ^ p) / d in
    let sticky := if (m * 2 ^ p) mod d =? 0 then 0 else 1 in
    SF2Prim (binary_normalize prec emax (signed (2 * q + sticky)) (- p - 1) neg).

(** *** parseFloat *)

Definition is_white_space (c : ascii) : bool :=
  let n := nat_of_ascii c in
  orb (Nat.eqb n 32) (andb (Nat.leb 9 n) (Nat.leb n 13)).

Definition digit_of (c : ascii) : option Z :=
  let n := Z.of_nat (nat_of_ascii c) in
  if andb (48 <=? n) (n <=? 57) then Some (n - 48) else None.

Fixpoint skip_white_space (s : string) : string :=
  match s with
  | String c rest => if is_white_space c then skip_white_space rest else s
  | EmptyString => s
  end.

(** Reads the longest run of decimal digits at the head of [s] onto the
    accumulator: the number read, how many digits, and what follows. *)
Fixpoint read_digits (s : string) (acc : Z) (count : Z) : Z * Z * string :=
  match s with
  | String c rest =>
      match digit_of c with
      | Some d => read_digits rest (10 * acc + d) (count + 1)
      | None => (acc, count, s)
      end
  | EmptyString => (acc, count, s)
  end.

Definition read_sign (s : string) : bool * string :=
  match s with
  | String "-" rest => (true, rest)
  | String "+" rest => (false, rest)
  | _ => (false, s)
  end.

(** The exponent part [e[+-]digits], when one is there; 0 otherwise. *)
Definition read_exponent (s : string) : Z :=
  match s with
  | String c rest =>
      if orb (Ascii.eqb c "e") (Ascii.eqb c "E") then
        let '(neg, rest') := read_sign rest in
        let '(e, count, _) := read_digits rest' 0 0 in
        if count =? 0 then 0 else if neg then - e else e
      else 0
  | EmptyString => 0
  end.

(** [parseFloat(s)]: leading white space (of the ASCII range) is skipped,
    the longest prefix that is a decimal literal is read, and what follows
    is ignored; NaN when there is no such prefix. *)
Definition parseFloat (s : string) : float :=
  let '(neg, body) := read_sign (skip_white_space s) in
  if String.prefix "Infinity" body then (if neg then PrimFloat.neg_infinity else PrimFloat.infinity)
  else
    let '(ip, ni, after_int) := read_digits body 0 0 in
    let '(m, nf, after_frac) :=
      match after_int with
      | String "." rest => read_digits rest ip 0
      | _ => (ip, 0, after_int)
      end in
    if ni + nf =? 0 then PrimFloat.nan
    else of_decimal neg m (read_exponent after_frac - nf).

(** *** Number.prototype.toFixed *)

Definition digits (n : Z) : string :=
  NilZero.string_of_uint (N.to_uint (Z.to_N n)).

Fixpoint zeros (k : nat) : string :=
  match k with
  | O => EmptyString
  | S k' => String "0" (zeros k')
  end.

(** The decimal digits of [n] with a point before the last [f] of them,
    padded on the left with zeros to [f + 1] digits. *)
Definition with_point (n : Z) (f : nat) : string :=
  let m := digits n in
  let m := (zeros (S f - String.length m) ++ m)%string in
  let k := String.length m in
  match f with
  | O => m
  | _ => (substring 0 (k - f) m ++ "." ++ substring (k - f) f m)%string
  end.

(** The integer [n] for which [n / 10^f] is nearest to [mant * 2^e],
    the larger one of two that are equally near. *)
Definition nearest_scaled (mant : positive) (e : Z) (f : nat) : Z :=
  let scaled := Z.pos mant * 10 ^ Z.of_nat f in
  if 0 <=? e then scaled * 2 ^ e
  else (2 * scaled + 2 ^ (- e)) / 2 ^ (1 - e).

(** [10^21 <= mant * 2^e] *)
Definition at_least_1e21 (mant : positive) (e : Z) : bool :=
  if 0 <=? e then 10 ^ 21 <=? Z.pos mant * 2 ^ e
  else 10 ^ 21 * 2 ^ (- e) <=? Z.pos mant.

(** [x.toFixed(f)].  A number of magnitude [10^21] or more is printed by
    Number::toString instead, which is not modelled: [None] there. *)
Definition toFixed (x : float) (f : nat) : option string :=
  match Prim2SF x with
  | S754_nan => Some "NaN"%string
  | S754_infinity false => Some "Infinity"%string
  | S754_infinity true => Some "-Infinity"%string
  | S754_zero _ => Some (with_point 0 f)
  | S754_finite s mant e =>
      if at_least_1e21 mant e then None
      else
        let body := with_point (nearest_scaled mant e f) f in
        Some (if s then String "-" body else body)
  end.

End Number.

(* ================================================================== *)
(** ** The browser's range input

    The speed control is an [<input type="range">] (lines 244-252).  What
    such a control can hold is the browser's business: the HTML standard
    (range state) keeps its value at or above [min], at or below [max]
    and on a multiple of [step] counted from [min], and hands it to the
    page as a decimal string.  The control is modelled from the standard,
    over the attributes the component renders; positions are computed in
    exact decimal arithmetic, as browsers do. *)

Module Range.

Local Open Scope Z_scope.

Record t : Type := mk {
  min : string;
  max : string;
  step : string;
  value : float
}.

(** ASCII whitespace: tab, line feed, form feed, carriage return, space. *)
Definition is_ascii_whitespace (c : ascii) : bool :=
  let n := nat_of_ascii c in
  orb (orb (Nat.eqb n 9) (Nat.eqb n 10))
      (orb (Nat.eqb n 12) (orb (Nat.eqb n 13) (Nat.eqb n 32))).

Fixpoint skip_ascii_whitespace (s : string) : string :=
  match s with
  | String c rest => if is_ascii_whitespace c then skip_ascii_whitespace rest else s
  | EmptyString => s
  end.

(** An attribute read as the decimal [m * 10^e]: leading whitespace,
    sign, digits, fraction and exponent, what follows being ignored;
    [None] without a digit. *)
Definition decimal_of (s : string) : option (Z * Z) :=
  let '(neg, body) := Number.read_sign (skip_ascii_whitespace s) in
  let '(ip, ni, after_int) := Number.read_digits body 0 0 in
  let '(m, nf, after_frac) :=
    match after_int with
    | String "." rest => Number.read_digits rest ip 0
    | _ => (ip, 0, after_int)
    end in
  if ni + nf =? 0 then None
  else Some (if neg then - m else m, Number.read_exponent after_frac - nf).

(** An attribute that is missing or not a number takes the default of the
    standard: 0 for [min], 100 for [max], 1 for [step]. *)
Definition attribute (s : string) (default : Z) : Z * Z :=
  match decimal_of s with
  | Some d => d
  | None => (default, 0)
  end.

(** [m * 10^e] as a multiple of [10^scale], for [scale <= e]. *)
Definition scaled (d : Z * Z) (scale : Z) : Z :=
  fst d * 10 ^ (snd d - scale).

Definition signed_point (n : Z) (f : nat) : string :=
  if n <? 0 then String "-" (Number.with_point (- n) f) else Number.with_point n f.

(** [n / 10^f] without trailing zeros. *)
Fixpoint shortest (n : Z) (f : nat) : string :=
  match f with
  | O => signed_point n 0
  | S f' => if n mod 10 =? 0 then shortest (n / 10) f' else signed_point n f
  end.

(** The decimal string of [n * 10^scale]: the digits in positional
    notation, which is how a number from [1e-6] up to [1e21] is printed. *)
Definition spell (n : Z) (scale : Z) : string :=
  if 0 <=? scale then signed_point (n * 10 ^ scale) 0
  else shortest n (Z.to_nat (- scale)).

(** The values the control can hold: [min], [min + step], ... as long as
    [max] is not exceeded; [min] alone when [max] is below it.  A [step]
    that is not positive counts as the default. *)
Definition values (min max step : string) : list string :=
  let lo := attribute min 0 in
  let hi := attribute max 100 in
  let st := attribute step 1 in
  let st := if fst st <=? 0 then (1, 0) else st in
  let scale := Z.min (snd lo) (Z.min (snd hi) (snd st)) in
  let lo := scaled lo scale in
  let hi := scaled hi scale in
  let st := scaled st scale in
  let last := if hi <? lo then 0 else (hi - lo) / st in
  map (fun k => spell (lo + Z.of_nat k * st) scale) (seq 0 (S (Z.to_nat last))).

(** [s] is a value the control [input] can hand to a change handler. *)
Definition holds (input : t) (s : string) : bool :=
  existsb (String.eqb s) (values (min input) (max input) (step input)).

End Range.

(* ================================================================== *)
(** ** three.js objects, as far as the component touches them *)

Module Three.

(** [cube.rotation]: the Euler angles the handlers add to. *)
Record Euler : Type := mkEuler {
  x : float;
  y : float
}.

(** The projection matrix is a function of the four parameters below; it
    is represented by the parameters it was last computed from. *)
Record Projection : Type := mkProjection {
  proj_fov : float;
  proj_aspect : float;
  proj_near : float;
  proj_far : float
}.

Record PerspectiveCamera : Type := mkCamera {
  fov : float;
  aspect : float;
  near : float;
  far : float;
  position_z : float;
  projectionMatrix : Projection
}.

(** [new THREE.PerspectiveCamera(fov, aspect, near, far)] computes the
    projection in its constructor. *)
Definition newPerspectiveCamera (fov aspect near far : float) : PerspectiveCamera :=
  mkCamera fov aspect near far 0 (mkProjection fov aspect near far).

Definition updateProjectionMatrix (c : PerspectiveCamera) : PerspectiveCamera :=
  mkCamera (fov c) (aspect c) (near c) (far c) (position_z c)
           (mkProjection (fov c) (aspect c) (near c) (far c)).

Definition set_aspect (a : float) (c : PerspectiveCamera) : PerspectiveCamera :=
  mkCamera (fov c) a (near c) (far c) (position_z c) (projectionMatrix c).

Definition set_position_z (z : float) (c : PerspectiveCamera) : PerspectiveCamera :=
  mkCamera (fov c) (aspect c) (near c) (far c) z (projectionMatrix c).

(** The renderer, which owns the canvas ([domElement]).  [frames] counts
    the calls of [render]. *)
Record WebGLRenderer : Type := mkRenderer {
  width : float;
  height : float;
  pixelRatio : float;
  shadowMapEnabled : bool;
  disposed : bool;
  frames : nat
}.

Definition newWebGLRenderer : WebGLRenderer :=
  mkRenderer 300 150 1 false false 0.

Definition setSize (w h : float) (r : WebGLRenderer) : WebGLRenderer :=
  mkRenderer w h (pixelRatio r) (shadowMapEnabled r) (disposed r) (frames r).

Definition setPixelRatio (p : float) (r : WebGLRenderer) : WebGLRenderer :=
  mkRenderer (width r) (height r) p (shadowMapEnabled r) (disposed r) (frames r).

Definition enableShadowMap (r : WebGLRenderer) : WebGLRenderer :=
  mkRenderer (width r) (height r) (pixelRatio r) true (disposed r) (frames r).

Definition dispose (r : WebGLRenderer) : WebGLRenderer :=
  mkRenderer (width r) (height r) (pixelRatio r) (shadowMapEnabled r) true (frames r).

Definition render (r : WebGLRenderer) : WebGLRenderer :=
  mkRenderer (width r) (height r) (pixelRatio r) (shadowMapEnabled r) (disposed r)
             (S (frames r)).

(** The objects added to the scene, in the order of [scene.add]. *)
Inductive Object3D : Type :=
| AmbientLight (color : Z) (intensity : float)
| DirectionalLight (color : Z) (intensity : float) (castShadow : bool)
| CubeMesh (castShadow : bool)
| FloorMesh (receiveShadow : bool).

End Three.

(* ================================================================== *)
(** ** The component *)

Module Widget.

Local Open Scope float_scope.

(** *** DOM events *)

(** [e.clientX], [e.clientY] of a mouse event. *)
Record MouseEvent : Type := mkMouseEvent {
  clientX : float;
  clientY : float
}.

(** One contact of a touch event: [touch.clientX], [touch.clientY]. *)
Record Touch : Type := mkTouch {
  touch_clientX : float;
  touch_clientY : float
}.

(** [e.touches] *)
Record TouchEvent : Type := mkTouchEvent {
  touches : list Touch
}.

(** *** Listener registrations *)

Inductive Target : Type := Container | Window.

(** The handlers the mount effect defines, by name. *)
Inductive Handler : Type :=
| OnMouseDown | OnMouseUp | OnMouseMove
| OnTouchStart | OnTouchMove | OnTouchEnd
| OnResize.

Record Listener : Type := mkListener {
  target : Target;
  type : string;
  callback : Handler
}.

Definition Target_eqb (a b : Target) : bool :=
  match a, b with
  | Container, Container | Window, Window => true
  | _, _ => false
  end.

Definition Handler_eqb (a b : Handler) : bool :=
  match a, b with
  | OnMouseDown, OnMouseDown | OnMouseUp, OnMouseUp | OnMouseMove, OnMouseMove
  | OnTouchStart, OnTouchStart | OnTouchMove, OnTouchMove | OnTouchEnd, OnTouchEnd
  | OnResize, OnResize => true
  | _, _ => false
  end.

Definition listens (tg : Target) (ty : string) (l : Listener) : bool :=
  andb (Target_eqb (target l) tg) (String.eqb (type l) ty).

Definition Listener_eqb (a b : Listener) : bool :=
  andb (listens (target a) (type a) b) (Handler_eqb (callback a) (callback b)).

(** *** What the component renders (lines 197-260) *)

Inductive View : Type :=
| FallbackView (message : string) (img_src : string)
| MainView (spinner : bool) (slider_value : float) (readout : option string).

(** *** The variables of the mount effect's scope (lines 35-90) *)

Record Position : Type := mkPosition {
  x : float;
  y : float
}.

Record Scope : Type := mkScope {
  scene : list Three.Object3D;
  camera : Three.PerspectiveCamera;
  cube_rotation : Three.Euler;
  isDragging : bool;
  previousPointerPosition : Position;
  geometry_disposed : bool;
  material_disposed : bool
}.

(** *** Timers and frame requests of the host *)

(** The only callback given to [setTimeout]: the arrow function of lines
    161-164. *)
Inductive TimerCallback : Type := StartAnimation.

Record Timer : Type := mkTimer {
  due : Z;
  timer_callback : TimerCallback
}.

(** The only callback given to [requestAnimationFrame]. *)
Inductive FrameCallback : Type := Animate.

(** *** The whole state *)

(** [rendererRef] holds the one renderer object: the effect's
    [renderer] constant and [rendererRef.current] are two names of it,
    and neither is reassigned after line 55.  [clientWidth],
    [clientHeight] and [canvasAttached] describe the container, the [div]
    behind [containerRef]; [updates] is the state behind [forceUpdate];
    [dom] is what React last rendered, [None] once unmounted. *)
Record World : Type := mkWorld {
  mounted : bool;
  isLoading : bool;
  webglSupported : bool;
  updates : float;
  dom : option View;
  rotationSpeedRef : float;
  rendererRef : option Three.WebGLRenderer;
  clientWidth : float;
  clientHeight : float;
  canvasAttached : bool;
  listeners : list Listener;
  timers : list Timer;
  frameRequests : list FrameCallback;
  clock : Z;
  scope : option Scope
}.

(** Field updates. *)

Definition set_mounted (b : bool) (w : World) : World :=
  mkWorld b (isLoading w) (webglSupported w) (updates w) (dom w) (rotationSpeedRef w)
    (rendererRef w) (clientWidth w) (clientHeight w) (canvasAttached w) (listeners w)
    (timers w) (frameRequests w) (clock w) (scope w).

Definition set_isLoading (b : bool) (w : World) : World :=
  mkWorld (mounted w) b (webglSupported w) (updates w) (dom w) (rotationSpeedRef w)
    (rendererRef w) (clientWidth w) (clientHeight w) (canvasAttached w) (listeners w)
    (timers w) (frameRequests w) (clock w) (scope w).

Definition set_webglSupported (b : bool) (w : World) : World :=
  mkWorld (mounted w) (isLoading w) b (updates w) (dom w) (rotationSpeedRef w)
    (rendererRef w) (clientWidth w) (clientHeight w) (canvasAttached w) (listeners w)
    (timers w) (frameRequests w) (clock w) (scope w).

Definition set_updates (u : float) (w : World) : World :=
  mkWorld (mounted w) (isLoading w) (webglSupported w) u (dom w) (rotationSpeedRef w)
    (rendererRef w) (clientWidth w) (clientHeight w) (canvasAttached w) (listeners w)
    (timers w) (frameRequests w) (clock w) (scope w).

Definition set_dom (d : option View) (w : World) : World :=
  mkWorld (mounted w) (isLoading w) (webglSupported w) (updates w) d (rotationSpeedRef w)
    (rendererRef w) (clientWidth w) (clientHeight w) (canvasAttached w) (listeners w)
    (timers w) (frameRequests w) (clock w) (scope w).

Definition set_rotationSpeedRef (v : float) (w : World) : World :=
  mkWorld (mounted w) (isLoading w) (webglSupported w) (updates w) (dom w) v
    (rendererRef w) (clientWidth w) (clientHeight w) (canvasAttached w) (listeners w)
    (timers w) (frameRequests w) (clock w) (scope w).

Definition set_rendererRef (r : option Three.WebGLRenderer) (w : World) : World :=
  mkWorld (mounted w) (isLoading w) (webglSupported w) (updates w) (dom w) (rotationSpeedRef w)
    r (clientWidth w) (clientHeight w) (canvasAttached w) (listeners w)
    (timers w) (frameRequests w) (clock w) (scope w).

Definition set_clientSize (cw ch : float) (w : World) : World :=
  mkWorld (mounted w) (isLoading w) (webglSupported w) (updates w) (dom w) (rotationSpeedRef w)
    (rendererRef w) cw ch (canvasAttached w) (listeners w)
    (timers w) (frameRequests w) (clock w) (scope w).

Definition set_canvasAttached (b : bool) (w : World) : World :=
  mkWorld (mounted w) (isLoading w) (webglSupported w) (updates w) (dom w) (rotationSpeedRef w)
    (rendererRef w) (clientWidth w) (clientHeight w) b (listeners w)
    (timers w) (frameRequests w) (clock w) (scope w).

Definition set_listeners (ls : list Listener) (w : World) : World :=
  mkWorld (mounted w) (isLoading w) (webglSupported w) (updates w) (dom w) (rotationSpeedRef w)
    (rendererRef w) (clientWidth w) (clientHeight w) (canvasAttached w) ls
    (timers w) (frameRequests w) (clock w) (scope w).

Definition set_timers (ts : list Timer) (w : World) : World :=
  mkWorld (mounted w) (isLoading w) (webglSupported w) (updates w) (dom w) (rotationSpeedRef w)
    (rendererRef w) (clientWidth w) (clientHeight w) (canvasAttached w) (listeners w)
    ts (frameRequests w) (clock w) (scope w).

Definition set_frameRequests (fs : list FrameCallback) (w : World) : World :=
  mkWorld (mounted w) (isLoading w) (webglSupported w) (updates w) (dom w) (rotationSpeedRef w)
    (rendererRef w) (clientWidth w) (clientHeight w) (canvasAttached w) (listeners w)
    (timers w) fs (clock w) (scope w).

Definition set_clock (t : Z) (w : World) : World :=
  mkWorld (mounted w) (isLoading w) (webglSupported w) (updates w) (dom w) (rotationSpeedRef w)
    (rendererRef w) (clientWidth w) (clientHeight w) (canvasAttached w) (listeners w)
    (timers w) (frameRequests w) t (scope w).

Definition set_scope (s : option Scope) (w : World) : World :=
  mkWorld (mounted w) (isLoading w) (webglSupported w) (updates w) (dom w) (rotationSpeedRef w)
    (rendererRef w) (clientWidth w) (clientHeight w) (canvasAttached w) (listeners w)
    (timers w) (frameRequests w) (clock w) s.

Definition set_cube_rotation (r : Three.Euler) (s : Scope) : Scope :=
  mkScope (scene s) (camera s) r (isDragging s) (previousPointerPosition s)
    (geometry_disposed s) (material_disposed s).

Definition set_camera (c : Three.PerspectiveCamera) (s : Scope) : Scope :=
  mkScope (scene s) c (cube_rotation s) (isDragging s) (previousPointerPosition s)
    (geometry_disposed s) (material_disposed s).

Definition set_isDragging (b : bool) (s : Scope) : Scope :=
  mkScope (scene s) (camera s) (cube_rotation s) b (previousPointerPosition s)
    (geometry_disposed s) (material_disposed s).

Definition set_previousPointerPosition (p : Position) (s : Scope) : Scope :=
  mkScope (scene s) (camera s) (cube_rotation s) (isDragging s) p
    (geometry_disposed s) (material_disposed s).

Definition dispose_geometry_material (s : Scope) : Scope :=
  mkScope (scene s) (camera s) (cube_rotation s) (isDragging s) (previousPointerPosition s)
    true true.

(** Applies [f] to the effect's variables, when the effect created them. *)
Definition in_scope (f : Scope -> Scope) (w : World) : World :=
  match scope w with
  | Some s => set_scope (Some (f s)) w
  | None => w
  end.

(** *** Rendering and React state (lines 21-25, 190-260) *)

Definition render (w : World) : View :=
  if negb (webglSupported w) then
    FallbackView "Your browser does not support WebGL." "/fallback.png"
  else
    MainView (isLoading w) (rotationSpeedRef w)
             (Number.toFixed (rotationSpeedRef w) 3).

(** The range input of a rendered view (lines 244-252): [min="0"],
    [max="0.1"], [step="0.001"] and the value it shows.  The fallback view
    has no input. *)
Definition rangeInput (v : View) : option Range.t :=
  match v with
  | MainView _ slider_value _ => Some (Range.mk "0" "0.1" "0.001" slider_value)
  | FallbackView _ _ => None
  end.

(** A state setter of a mounted component re-renders it; React drops the
    update of a component that is no longer mounted. *)
Definition setState (set : World -> World) (w : World) : World :=
  if mounted w then
    let w' := set w in set_dom (Some (render w')) w'
  else w.

Definition setIsLoading (b : bool) : World -> World := setState (set_isLoading b).

Definition setWebglSupported (b : bool) : World -> World :=
  setState (set_webglSupported b).

(** [forceUpdate((v) => v + 1)] *)
Definition forceUpdate : World -> World :=
  setState (fun w => set_updates (updates w + 1) w).

(** Lines 191-194.  [value] is [e.target.value]. *)
Definition onSpeedChange (value : string) (w : World) : World :=
  forceUpdate (set_rotationSpeedRef (Number.parseFloat value) w).

(** *** Gesture handlers (lines 93-130) *)

Definition onMouseDown (e : MouseEvent) (s : Scope) : Scope :=
  set_previousPointerPosition (mkPosition (clientX e) (clientY e))
    (set_isDragging true s).

Definition onMouseUp (s : Scope) : Scope :=
  set_isDragging false s.

(** The body shared, word for word, by [onMouseMove] and [onTouchMove]
    once the pointer is known (lines 103-108 and 122-126). *)
Definition rotateBy (cx cy : float) (s : Scope) : Scope :=
  let deltaX := cx - x (previousPointerPosition s) in
  let deltaY := cy - y (previousPointerPosition s) in
  let r := cube_rotation s in
  let r := Three.mkEuler (Three.x r) (Three.y r + deltaX * 0.01) in
  let r := Three.mkEuler (Three.x r + deltaY * 0.01) (Three.y r) in
  set_previousPointerPosition (mkPosition cx cy) (set_cube_rotation r s).

Definition onMouseMove (e : MouseEvent) (s : Scope) : Scope :=
  if negb (isDragging s) then s
  else rotateBy (clientX e) (clientY e) s.

Definition onTouchStart (e : TouchEvent) (s : Scope) : Scope :=
  if Nat.eqb (List.length (touches e)) 1 then
    match touches e with
    | touch :: _ =>
        set_previousPointerPosition
          (mkPosition (touch_clientX touch) (touch_clientY touch))
          (set_isDragging true s)
    | [] => s
    end
  else s.

Definition onTouchMove (e : TouchEvent) (s : Scope) : Scope :=
  if orb (negb (isDragging s)) (negb (Nat.eqb (List.length (touches e)) 1)) then s
  else
    match touches e with
    | touch :: _ => rotateBy (touch_clientX touch) (touch_clientY touch) s
    | [] => s
    end.

Definition onTouchEnd (s : Scope) : Scope :=
  set_isDragging false s.

(** *** Resize (lines 145-150) *)

(** [container] is the non-null [div] the effect captured, so the guard
    of line 146 never returns. *)
Definition onResize (w : World) : World :=
  match scope w, rendererRef w with
  | Some s, Some renderer =>
      let cam := Three.set_aspect (clientWidth w / clientHeight w) (camera s) in
      let cam := Three.updateProjectionMatrix cam in
      let renderer := Three.setSize (clientWidth w) (clientHeight w) renderer in
      set_rendererRef (Some renderer) (set_scope (Some (set_camera cam s)) w)
  | _, _ => w
  end.

(** *** The animation loop (lines 154-164) *)

Definition animate (w : World) : World :=
  match scope w, rendererRef w with
  | Some s, Some renderer =>
      let r := cube_rotation s in
      let r := Three.mkEuler (Three.x r) (Three.y r + rotationSpeedRef w) in
      let w := set_scope (Some (set_cube_rotation r s)) w in
      let w := set_rendererRef (Some (Three.render renderer)) w in
      set_frameRequests (frameRequests w ++ [Animate]) w
  | _, _ => w
  end.

(** The callback of [setTimeout]. *)
Definition startAnimation (w : World) : World :=
  animate (setIsLoading false w).

(** *** Listener registration *)

(** [addEventListener] ignores a registration that is already there. *)
Definition addEventListener (tg : Target) (ty : string) (h : Handler) (w : World) : World :=
  let l := mkListener tg ty h in
  if existsb (Listener_eqb l) (listeners w) then w
  else set_listeners (listeners w ++ [l]) w.

Definition removeEventListener (tg : Target) (ty : string) (h : Handler) (w : World) : World :=
  let l := mkListener tg ty h in
  set_listeners (filter (fun l' => negb (Listener_eqb l l')) (listeners w)) w.

Definition setTimeout (cb : TimerCallback) (delay : Z) (w : World) : World :=
  set_timers (timers w ++ [mkTimer (clock w + delay)%Z cb]) w.

(** *** The mount effect (lines 27-188) *)

(** The first render, before any effect has run. *)
Definition initial (host : Host.t) : World :=
  let w := mkWorld true true true 0 None 0.01 None
             (Host.initialWidth host) (Host.initialHeight host) false [] [] [] 0%Z None in
  set_dom (Some (render w)) w.

Definition newScene : list Three.Object3D :=
  [ Three.AmbientLight 16777215 0.6;
    Three.DirectionalLight 16777215 0.8 true;
    Three.CubeMesh true;
    Three.FloorMesh true ].

(** Lines 35-164: what the effect does once the probe has succeeded. *)
Definition construct (host : Host.t) (w : World) : World :=
  let camera :=
    Three.set_position_z 5
      (Three.newPerspectiveCamera 75 (clientWidth w / clientHeight w) 0.1 1000) in
  let renderer := Three.newWebGLRenderer in
  let renderer := Three.setSize (clientWidth w) (clientHeight w) renderer in
  let renderer := Three.setPixelRatio (Host.devicePixelRatio host) renderer in
  let renderer := Three.enableShadowMap renderer in
  let w := set_canvasAttached true w in
  let w := set_rendererRef (Some renderer) w in
  let w := set_scope
             (Some (mkScope newScene camera (Three.mkEuler 0 0) false (mkPosition 0 0)
                            false false)) w in
  let w := addEventListener Container "mousedown" OnMouseDown w in
  let w := addEventListener Container "mouseup" OnMouseUp w in
  let w := addEventListener Container "mousemove" OnMouseMove w in
  let w := addEventListener Container "mouseleave" OnMouseUp w in
  let w := addEventListener Container "touchstart" OnTouchStart w in
  let w := addEventListener Container "touchmove" OnTouchMove w in
  let w := addEventListener Container "touchend" OnTouchEnd w in
  let w := addEventListener Container "touchcancel" OnTouchEnd w in
  let w := addEventListener Window "resize" OnResize w in
  setTimeout StartAnimation 500 w.

(** The effect.  A probe that threw would abort it; [isWebGLAvailable]
    never does. *)
Definition mountEffect (host : Host.t) (w : World) : World :=
  match isWebGLAvailable host with
  | Js.Normal true => construct host w
  | Js.Normal false => setWebglSupported false w
  | Js.Throw => w
  end.

Definition mount (host : Host.t) : World :=
  mountEffect host (initial host).

(** Lines 167-187: the function the effect returns. *)
Definition cleanup (w : World) : World :=
  let w := removeEventListener Container "mousedown" OnMouseDown w in
  let w := removeEventListener Container "mouseup" OnMouseUp w in
  let w := removeEventListener Container "mousemove" OnMouseMove w in
  let w := removeEventListener Container "mouseleave" OnMouseUp w in
  let w := removeEventListener Container "touchstart" OnTouchStart w in
  let w := removeEventListener Container "touchmove" OnTouchMove w in
  let w := removeEventListener Container "touchend" OnTouchEnd w in
  let w := removeEventListener Container "touchcancel" OnTouchEnd w in
  let w := removeEventListener Window "resize" OnResize w in
  let w :=
    match rendererRef w with
    | Some renderer =>
        set_rendererRef (Some (Three.dispose renderer)) (set_canvasAttached false w)
    | None => w
    end in
  in_scope dispose_geometry_material w.

(** React unmounts the component: the effect's cleanup runs, when the
    effect returned one, and the rendered view is removed. *)
Definition unmount (w : World) : World :=
  if mounted w then
    let w := match scope w with Some _ => cleanup w | None => w end in
    set_dom None (set_mounted false w)
  else w.

(** *** What the host can do to a widget *)

Inductive Event : Type :=
| Mouse (type : string) (e : MouseEvent)   (* a mouse event on the container *)
| Touches (type : string) (e : TouchEvent) (* a touch event on the container *)
| WindowEvent (type : string)              (* an event on [window] *)
| Layout (width height : float)            (* the container gets a new size *)
| Elapse (ms : Z)                          (* time passes *)
| RunTimers                                (* the host runs the timers that are due *)
| AnimationFrame                           (* the host runs the requested frame callbacks *)
| SliderChange (value : string)            (* the user moves the range input *)
| Unmount.

(** The listeners of [tg] for events of type [ty] are called in the
    order of their registration. *)
Definition dispatch (tg : Target) (ty : string) (call : Handler -> World -> World)
    (w : World) : World :=
  fold_left (fun w l => call (callback l) w) (filter (listens tg ty) (listeners w)) w.

(** Calling a handler with the event object of a mouse, touch or window
    event.  The effect registers each handler under event types of its
    own kind only. *)
Definition callMouse (e : MouseEvent) (h : Handler) : World -> World :=
  match h with
  | OnMouseDown => in_scope (onMouseDown e)
  | OnMouseUp => in_scope onMouseUp
  | OnMouseMove => in_scope (onMouseMove e)
  | _ => fun w => w
  end.

Definition callTouch (e : TouchEvent) (h : Handler) : World -> World :=
  match h with
  | OnTouchStart => in_scope (onTouchStart e)
  | OnTouchMove => in_scope (onTouchMove e)
  | OnTouchEnd => in_scope onTouchEnd
  | _ => fun w => w
  end.

Definition callWindow (h : Handler) : World -> World :=
  match h with
  | OnResize => onResize
  | _ => fun w => w
  end.

Definition runTimer (cb : TimerCallback) : World -> World :=
  match cb with
  | StartAnimation => startAnimation
  end.

(** The timers whose time has come are run in order and dropped. *)
Definition runTimers (w : World) : World :=
  let isDue := fun t => (due t <=? clock w)%Z in
  let ready := filter isDue (timers w) in
  let waiting := filter (fun t => negb (isDue t)) (timers w) in
  fold_left (fun w t => runTimer (timer_callback t) w) ready (set_timers waiting w).

Definition runFrame (cb : FrameCallback) : World -> World :=
  match cb with
  | Animate => animate
  end.

(** One frame: the callbacks requested so far are run; what they request
    is for the next frame. *)
Definition animationFrame (w : World) : World :=
  fold_left (fun w cb => runFrame cb w) (frameRequests w) (set_frameRequests [] w).

(** The range input exists while the main view is displayed. *)
Definition sliderDisplayed (w : World) : bool :=
  match dom w with
  | Some (MainView _ _ _) => true
  | _ => false
  end.

Definition step (w : World) (e : Event) : World :=
  match e with
  | Mouse ty ev => dispatch Container ty (callMouse ev) w
  | Touches ty ev => dispatch Container ty (callTouch ev) w
  | WindowEvent ty => dispatch Window ty callWindow w
  | Layout cw ch => set_clientSize cw ch w
  | Elapse ms => set_clock (clock w + Z.max 0 ms)%Z w
  | RunTimers => runTimers w
  | AnimationFrame => animationFrame w
  | SliderChange value => if sliderDisplayed w then onSpeedChange value w else w
  | Unmount => unmount w
  end.

Definition run (w : World) (events : list Event) : World :=
  fold_left step events w.

(** The cube's rotation, [(0, 0)] before the cube exists. *)
Definition rotation (w : World) : Three.Euler :=
  match scope w with
  | Some s => cube_rotation s
  | None => Three.mkEuler 0 0
  end.

Definition dragging (w : World) : bool :=
  match scope w with
  | Some s => isDragging s
  | None => false
  end.

End Widget.


Import Widget.

(* ================================================================== *)
(** ** Vocabulary of the statements *)

Local Open Scope float_scope.

(** *** Browsers to run the model on *)

(** A browser with WebGL: [getContext("webgl")] answers a context. *)
Definition webglCanvas : Host.Canvas :=
  Host.mkCanvas
    (fun name =>
       if String.eqb name "webgl" then Js.Normal (Js.Object "WebGLRenderingContext")
       else Js.Normal Js.Null).

Definition webglBrowser : Host.t :=
  Host.mkHost (fun _ => Js.Normal webglCanvas) (Js.Normal (Js.Object "Function"))
              2 600 400.

(** A browser that knows the class but cannot create a context. *)
Definition noContextBrowser : Host.t :=
  Host.mkHost (fun _ => Js.Normal (Host.mkCanvas (fun _ => Js.Normal Js.Null)))
              (Js.Normal (Js.Object "Function")) 1 600 400.

(** A canvas whose [getContext] throws. *)
Definition throwingBrowser : Host.t :=
  Host.mkHost (fun _ => Js.Normal (Host.mkCanvas (fun _ => Js.Throw)))
              (Js.Normal (Js.Object "Function")) 1 600 400.

(** *** The probe *)

(** What a [true] answer took: a truthy context from the first name or,
    the first being falsy, from the second. *)
Definition contextObtained (canvas : Host.Canvas) : Prop :=
  (exists ctx, Host.getContext canvas "webgl" = Js.Normal ctx /\ Js.truthy ctx = true)
  \/ (exists none ctx,
        Host.getContext canvas "webgl" = Js.Normal none /\ Js.truthy none = false
        /\ Host.getContext canvas "experimental-webgl" = Js.Normal ctx
        /\ Js.truthy ctx = true).

(** The steps of the attempt that can fail, in evaluation order. *)
Inductive attemptThrows (host : Host.t) : Prop :=
| createElement_throws :
    Host.createElement host "canvas" = Js.Throw -> attemptThrows host
| marker_throws canvas :
    Host.createElement host "canvas" = Js.Normal canvas ->
    Host.WebGLRenderingContext host = Js.Throw -> attemptThrows host
| getContext_throws canvas marker :
    Host.createElement host "canvas" = Js.Normal canvas ->
    Host.WebGLRenderingContext host = Js.Normal marker ->
    Js.truthy marker = true ->
    Host.getContext canvas "webgl" = Js.Throw -> attemptThrows host
| getContext_experimental_throws canvas marker none :
    Host.createElement host "canvas" = Js.Normal canvas ->
    Host.WebGLRenderingContext host = Js.Normal marker ->
    Js.truthy marker = true ->
    Host.getContext canvas "webgl" = Js.Normal none ->
    Js.truthy none = false ->
    Host.getContext canvas "experimental-webgl" = Js.Throw -> attemptThrows host.

(** *** Widgets between a successful mount and their unmount *)

(** The registrations of lines 133-151. *)
Definition effectListeners : list Listener :=
  [ mkListener Container "mousedown" OnMouseDown;
    mkListener Container "mouseup" OnMouseUp;
    mkListener Container "mousemove" OnMouseMove;
    mkListener Container "mouseleave" OnMouseUp;
    mkListener Container "touchstart" OnTouchStart;
    mkListener Container "touchmove" OnTouchMove;
    mkListener Container "touchend" OnTouchEnd;
    mkListener Container "touchcancel" OnTouchEnd;
    mkListener Window "resize" OnResize ].

(** The scene exists and its listeners are attached. *)
Definition Live (w : World) : Prop :=
  mounted w = true
  /\ listeners w = effectListeners
  /\ (exists s, scope w = Some s)
  /\ (exists r, rendererRef w = Some r).

Definition isUnmount (e : Event) : bool :=
  match e with
  | Unmount => true
  | _ => false
  end.

(** No event of the list unmounts the widget. *)
Definition staysMounted (events : list Event) : Prop :=
  Forall (fun e => isUnmount e = false) events.

(** *** Drag sequences *)

Inductive Device : Type := ByMouse | ByTouch.

(** How a drag ends: the button or finger is lifted ([mouseup],
    [touchend]), or the gesture is broken off ([mouseleave],
    [touchcancel]). *)
Inductive Ending : Type := Lifted | BrokenOff.

Definition press (d : Device) (p : Position) : Event :=
  match d with
  | ByMouse => Mouse "mousedown" (mkMouseEvent (x p) (y p))
  | ByTouch => Touches "touchstart" (mkTouchEvent [mkTouch (x p) (y p)])
  end.

Definition move (d : Device) (p : Position) : Event :=
  match d with
  | ByMouse => Mouse "mousemove" (mkMouseEvent (x p) (y p))
  | ByTouch => Touches "touchmove" (mkTouchEvent [mkTouch (x p) (y p)])
  end.

(** The release; [p] is where the pointer is then (no contact is left on a
    touch screen). *)
Definition release (d : Device) (how : Ending) (p : Position) : Event :=
  match d, how with
  | ByMouse, Lifted => Mouse "mouseup" (mkMouseEvent (x p) (y p))
  | ByMouse, BrokenOff => Mouse "mouseleave" (mkMouseEvent (x p) (y p))
  | ByTouch, Lifted => Touches "touchend" (mkTouchEvent [])
  | ByTouch, BrokenOff => Touches "touchcancel" (mkTouchEvent [])
  end.

Definition dragSequence (d : Device) (start : Position) (moves : list Position)
    (how : Ending) (last : Position) : list Event :=
  press d start :: map (move d) moves ++ [release d how last].

(** The terms [(current - previous) * 0.01] of the moves, for one
    coordinate, the previous position of the first move being [prev]. *)
Fixpoint increments (coord : Position -> float) (prev : Position) (moves : list Position)
    : list float :=
  match moves with
  | [] => []
  | p :: rest => (coord p - coord prev) * 0.01 :: increments coord p rest
  end.

(** The sum of [terms] onto [r0], each added in turn as [+=] does. *)
Definition addAll (r0 : float) (terms : list float) : float :=
  fold_left PrimFloat.add terms r0.

(** *** Animation frames *)

(** [r] after [n] frames at speed [speed]: one [+=] per frame. *)
Fixpoint addTimes (n : nat) (speed r : float) : float :=
  match n with
  | O => r
  | S k => addTimes k speed (r + speed)
  end.

(** *** The speed control *)

(** The bounds of the range input (lines 246-247): its [min] and [max]. *)
Definition inRange (v : float) : bool :=
  andb (0 <=? v) (v <=? 0.1).

(** A range input reports values within its bounds only: on a change the
    browser has already clamped [e.target.value] to [min] and [max]. *)
Definition sliderInRange (e : Event) : Prop :=
  match e with
  | SliderChange value => inRange (Number.parseFloat value) = true
  | _ => True
  end.

(** A change event carries a value that the range input displayed at that
    moment can hold; without an input there is no change event. *)
Definition changeDelivered (w : World) (value : string) : bool :=
  match dom w with
  | Some view =>
      match rangeInput view with
      | Some input => Range.holds input value
      | None => false
      end
  | None => false
  end.

(** Every change event of [events], which happen to [w] in turn, comes
    from the range input displayed when it happens. *)
Fixpoint fromControl (w : World) (events : list Event) : bool :=
  match events with
  | [] => true
  | e :: rest =>
      andb (match e with
            | SliderChange value => changeDelivered w value
            | _ => true
            end)
           (fromControl (step w e) rest)
  end.

(** *** Kinds of events *)

(** The events the DOM delivers to listeners. *)
Definition isDomEvent (e : Event) : bool :=
  match e with
  | Mouse _ _ | Touches _ _ | WindowEvent _ => true
  | _ => false
  end.

Definition isSliderChange (e : Event) : bool :=
  match e with
  | SliderChange _ => true
  | _ => false
  end.

(** *** Views *)

Definition fallbackView : View :=
  FallbackView "Your browser does not support WebGL." "/fallback.png".

(** The number of frames drawn so far. *)
Definition framesDrawn (w : World) : nat :=
  match rendererRef w with
  | Some renderer => Three.frames renderer
  | None => 0%nat
  end.

(** *** Invariants of the event loop *)

Definition isSome {A : Type} (o : option A) : bool :=
  match o with
  | Some _ => true
  | None => false
  end.

(** The functions the gesture listeners apply to the effect's variables. *)
Inductive GestureHandler : (Scope -> Scope) -> Prop :=
| handler_onMouseDown e : GestureHandler (onMouseDown e)
| handler_onMouseUp : GestureHandler onMouseUp
| handler_onMouseMove e : GestureHandler (onMouseMove e)
| handler_onTouchStart e : GestureHandler (onTouchStart e)
| handler_onTouchMove e : GestureHandler (onTouchMove e)
| handler_onTouchEnd : GestureHandler onTouchEnd.

(** [Stable P]: [P] survives every operation that DOM events, layout, the
    clock, timers and animation frames are made of. *)
Record Stable (P : World -> Prop) : Prop := mkStable {
  stable_gesture : forall f w, GestureHandler f -> P w -> P (in_scope f w);
  stable_onResize : forall w, P w -> P (onResize w);
  stable_animate : forall w, P w -> P (animate w);
  stable_setIsLoading : forall w, P w -> P (setIsLoading false w);
  stable_set_clientSize : forall cw ch w, P w -> P (set_clientSize cw ch w);
  stable_set_clock : forall t w, P w -> P (set_clock t w);
  stable_set_timers : forall ts w, P w -> P (set_timers ts w);
  stable_set_frameRequests : forall w, P w -> P (set_frameRequests [] w)
}.

(** A widget whose probe failed. *)
Record Inert (w : World) : Prop := mkInert {
  inert_renderer : rendererRef w = None;
  inert_canvas : canvasAttached w = false;
  inert_scope : scope w = None;
  inert_listeners : listeners w = [];
  inert_timers : timers w = [];
  inert_frameRequests : frameRequests w = [];
  inert_supported : webglSupported w = false;
  inert_loading : isLoading w = true;
  inert_speed : rotationSpeedRef w = 0.01;
  inert_updates : updates w = 0;
  inert_dom : dom w = if mounted w then Some fallbackView else None
}.

(** What is displayed is the last render. *)
Definition Synced (w : World) : Prop :=
  dom w = if mounted w then Some (render w) else None.

(** The two phases of a live widget: waiting for the timer of line 161,
    and looping. *)
Inductive Phase (w : World) : Prop :=
| Loading :
    timers w = [mkTimer 500 StartAnimation] ->
    isLoading w = true ->
    frameRequests w = [] ->
    framesDrawn w = 0%nat ->
    Phase w
| Looping :
    timers w = [] ->
    isLoading w = false ->
    frameRequests w = [Animate] ->
    (500 <= clock w)%Z ->
    Phase w.

(** The loop is on: the scene exists and one run of [animate] is
    requested.  Nothing here says that the widget is still mounted. *)
Definition LoopOn (w : World) : Prop :=
  (exists s, scope w = Some s)
  /\ (exists r, rendererRef w = Some r)
  /\ frameRequests w = [Animate].

(** The cube's Y rotation is not the negative zero. *)
Definition NotNegativeZero (w : World) : Prop :=
  Three.y (rotation w) <> PrimFloat.neg_zero.

(** *** Binary64 *)

(** The least exponent of a binary64 mantissa: [emin prec emax]. *)
Definition emin64 : Z := -1074.

(** *** Vocabulary of the further properties *)

(** Where the drag is anchored: [previousPointerPosition], [(0, 0)]
    before the effect has created it. *)
Definition anchor (w : World) : Position :=
  match scope w with
  | Some s => previousPointerPosition s
  | None => mkPosition 0 0
  end.

Definition isPointerEvent (e : Event) : bool :=
  match e with
  | Mouse _ _ | Touches _ _ => true
  | _ => false
  end.

(** What can happen while a drag is on: the pointer moves, under either
    device, or the host does something that is not a pointer event. *)
Inductive DragStep : Type :=
| Moved (d : Device) (p : Position)
| Meanwhile (e : Event).

Definition eventOf (st : DragStep) : Event :=
  match st with
  | Moved d p => move d p
  | Meanwhile e => e
  end.

(** The positions the pointer moved to. *)
Fixpoint positions (steps : list DragStep) : list Position :=
  match steps with
  | [] => []
  | Moved _ p :: rest => p :: positions rest
  | Meanwhile _ :: rest => positions rest
  end.

Definition quietStep (st : DragStep) : bool :=
  match st with
  | Moved _ _ => true
  | Meanwhile e => andb (negb (isPointerEvent e)) (negb (isUnmount e))
  end.

(** A drag that the host interleaves with other work, and that may start
    with one device, go on with another and end with a third. *)
Definition interleavedDrag (d : Device) (start : Position) (steps : list DragStep)
    (d' : Device) (how : Ending) (last : Position) : list Event :=
  press d start :: map eventOf steps ++ [release d' how last].

(** The terms added to the Y rotation while a drag is on and the loop
    runs at [speed]: [(current X - previous X) * 0.01] for a move of the
    pointer, [speed] for an animation frame. *)
Fixpoint turns (speed : float) (prev : Position) (steps : list DragStep) : list float :=
  match steps with
  | [] => []
  | Moved _ p :: rest => (x p - x prev) * 0.01 :: turns speed p rest
  | Meanwhile _ :: rest => speed :: turns speed prev rest
  end.

Definition moveOrFrame (st : DragStep) : bool :=
  match st with
  | Moved _ _ => true
  | Meanwhile AnimationFrame => true
  | Meanwhile _ => false
  end.

(** A DOM event of a type under which the effect registers nothing on
    the event's target (lines 133-151). *)
Definition unheard (e : Event) : bool :=
  match e with
  | Mouse ty _ | Touches ty _ => negb (existsb (listens Container ty) effectListeners)
  | WindowEvent ty => negb (existsb (listens Window ty) effectListeners)
  | _ => false
  end.

(** The listeners and the canvas are there exactly while the widget is
    mounted. *)
Definition Owned (w : World) : Prop :=
  listeners w = (if mounted w then effectListeners else [])
  /\ canvasAttached w = mounted w.

(** The events that still act on an unmounted widget: the passing of
    time, the timers and the animation frames (and the container's own
    layout). *)
Definition actsAfterUnmount (e : Event) : bool :=
  match e with
  | Layout _ _ | Elapse _ | RunTimers | AnimationFrame => true
  | _ => false
  end.

(** The effect has built its scene and renderer. *)
Definition Built (w : World) : Prop :=
  (exists s, scope w = Some s) /\ (exists r, rendererRef w = Some r).

(** What the cleanup of lines 167-187 leaves behind. *)
Definition Released (w : World) : Prop :=
  mounted w = false
  /\ dom w = None
  /\ listeners w = []
  /\ canvasAttached w = false
  /\ (exists r, rendererRef w = Some r /\ Three.disposed r = true)
  /\ (exists s, scope w = Some s
                /\ geometry_disposed s = true /\ material_disposed s = true).

(** Nothing of the widget is left on the page. *)
Definition Unmounted (w : World) : Prop :=
  mounted w = false /\ dom w = None /\ listeners w = [].

(** The start-up timer is pending and nothing has been drawn, or it has
    fired and exactly one run of [animate] is requested. *)
Definition Scheduled (w : World) : Prop :=
  (timers w = [mkTimer 500 StartAnimation] /\ frameRequests w = []
   /\ framesDrawn w = 0%nat)
  \/ (timers w = [] /\ frameRequests w = [Animate]).

(** The camera and the renderer agree, and the camera keeps the
    parameters of lines 41-47. *)
Definition SceneConsistent (host : Host.t) (w : World) : Prop :=
  exists s r,
    scope w = Some s /\ rendererRef w = Some r
    /\ Three.fov (camera s) = 75
    /\ Three.near (camera s) = 0.1
    /\ Three.far (camera s) = 1000
    /\ Three.position_z (camera s) = 5
    /\ Three.aspect (camera s) = Three.width r / Three.height r
    /\ Three.projectionMatrix (camera s) =
       Three.mkProjection 75 (Three.width r / Three.height r) 0.1 1000
    /\ Three.pixelRatio r = Host.devicePixelRatio host
    /\ Three.shadowMapEnabled r = true
    /\ scene s = newScene.

(** The decimal [k / 1000] with its three decimals: what the readout
    shows for step [k] of the slider. *)
Definition threeDecimals (k : nat) : string :=
  Number.with_point (Z.of_nat k) 3.

(** The value string of the range input at step [k <= 100]: the shortest
    decimal for [k / 1000] ("0", "0.001", ..., "0.05", ..., "0.1"). *)
Definition sliderValue (k : nat) : string :=
  let z := Z.of_nat k in
  if (z =? 0)%Z then "0"
  else if (z mod 100 =? 0)%Z then Number.with_point (z / 100) 1
  else if (z mod 10 =? 0)%Z then Number.with_point (z / 10) 2
  else Number.with_point z 3.

(** Step [k] of the slider is displayed correctly: both spellings of
    [k / 1000] parse to one number within the bounds, whose [toFixed(3)]
    is [k / 1000] with three decimals. *)
Definition stepShown (k : nat) : bool :=
  let v := Number.parseFloat (sliderValue k) in
  andb (inRange v)
       (andb (Leibniz.eqb (Number.parseFloat (threeDecimals k)) v)
             (match Number.toFixed v 3 with
              | Some readout => String.eqb readout (threeDecimals k)
              | None => false
              end)).

(* ================================================================== *)
(** ** Binary64 addition and the zeros

    [+=] never produces a negative zero out of a number that is not one:
    the sum of two binary64 numbers is [-0] only when both are.  This is
    read off the specification of the addition ([SFadd]), where a non-zero
    sum is rounded by shifting its mantissa, which never empties it. *)

Local Open Scope Z_scope.

Lemma fexp64 e : fexp prec emax e = Z.max (e - 53) emin64.
Proof. reflexivity. Qed.

Lemma shr_1_positive m r s :
  (1 < Pos.size_nat m)%nat ->
  exists m' r' s',
    shr_1 (Build_shr_record (Zpos m) r s) = Build_shr_record (Zpos m') r' s'
    /\ Pos.size_nat m = S (Pos.size_nat m').
Proof.
  destruct m as [p|p|]; cbn; intros H; try lia; eauto.
Qed.

Lemma iter_pos_nat (A : Type) (f : A -> A) p : forall a,
  SpecFloat.iter_pos f p a = Nat.iter (Pos.to_nat p) f a.
Proof.
  induction p as [p IH|p IH|]; intros a; cbn [SpecFloat.iter_pos].
  - rewrite !IH, Pos2Nat.inj_xI.
    replace (S (2 * Pos.to_nat p)) with (Pos.to_nat p + (Pos.to_nat p + 1))%nat by lia.
    rewrite !Nat.iter_add. reflexivity.
  - rewrite !IH, Pos2Nat.inj_xO.
    replace (2 * Pos.to_nat p)%nat with (Pos.to_nat p + Pos.to_nat p)%nat by lia.
    rewrite Nat.iter_add. reflexivity.
  - reflexivity.
Qed.

(** Fewer right shifts than the mantissa has bits leave a mantissa. *)
Lemma shr_iter_positive k : forall m r s,
  (k < Pos.size_nat m)%nat ->
  exists m' r' s',
    Nat.iter k shr_1 (Build_shr_record (Zpos m) r s) = Build_shr_record (Zpos m') r' s'.
Proof.
  induction k as [|k IH]; intros m r s Hk.
  - cbn. eauto.
  - rewrite Nat.iter_succ_r.
    destruct (shr_1_positive m r s) as (m1 & r1 & s1 & E & Hsz); [lia|].
    rewrite E. apply IH. lia.
Qed.

Lemma digits2_size m : Z.pos (digits2_pos m) = Z.of_nat (Pos.size_nat m).
Proof.
  induction m as [p IH|p IH|]; cbn [digits2_pos Pos.size_nat]; try reflexivity;
    rewrite Pos2Z.inj_succ, IH; lia.
Qed.

(** Rounding to the exponent of the format keeps a positive mantissa
    positive, at an exponent that is still at least [emin64]. *)
Lemma shr_fexp_positive m e l :
  emin64 <= e ->
  exists m' r' s' e',
    shr_fexp prec emax (Zpos m) e l = (Build_shr_record (Zpos m') r' s', e')
    /\ emin64 <= e'.
Proof.
  intros He. unfold shr_fexp, shr, Zdigits2. rewrite fexp64.
  destruct l as [|[| |]]; cbn [shr_record_of_loc];
    (destruct (Z.max (Z.pos (digits2_pos m) + e - 53) emin64 - e) as [|p|p] eqn:En;
     [ eauto 8 | | eauto 8 ];
     rewrite iter_pos_nat;
     match goal with
     | |- context [Nat.iter _ shr_1 (Build_shr_record _ ?r ?s)] =>
         destruct (shr_iter_positive (Pos.to_nat p) m r s) as (m' & r' & s' & E)
     end;
     [ rewrite digits2_size in En; lia
     | rewrite E; exists m', r', s'; eexists; split; [reflexivity | lia] ]).
Qed.

Lemma round_nearest_even_positive m l :
  exists m', round_nearest_even (Zpos m) l = Zpos m'.
Proof.
  destruct l as [|[| |]]; cbn [round_nearest_even]; eauto.
  - destruct (Z.even (Zpos m)); eauto.
    exists (m + 1)%positive. reflexivity.
  - exists (m + 1)%positive. reflexivity.
Qed.

Lemma binary_round_aux_not_zero sx m e l sz :
  emin64 <= e ->
  binary_round_aux prec emax sx (Zpos m) e l <> S754_zero sz.
Proof.
  intros He. unfold binary_round_aux.
  destruct (shr_fexp_positive m e l He) as (m1 & r1 & s1 & e1 & E1 & He1).
  rewrite E1. cbn [shr_m].
  destruct (round_nearest_even_positive
              m1 (loc_of_shr_record (Build_shr_record (Zpos m1) r1 s1))) as [m2 E2].
  rewrite E2.
  destruct (shr_fexp_positive m2 e1 loc_Exact He1) as (m3 & r3 & s3 & e3 & E3 & He3).
  rewrite E3. cbn [shr_m].
  destruct (e3 <=? emax - prec); discriminate.
Qed.

Lemma binary_round_not_zero sx m e sz :
  emin64 <= e ->
  binary_round prec emax sx m e <> S754_zero sz.
Proof.
  intros He. unfold binary_round, shl_align. rewrite fexp64.
  destruct (Z.max (Z.pos (digits2_pos m) + e - 53) emin64 - e) as [|p|p] eqn:En;
    try (apply binary_round_aux_not_zero; exact He).
  apply binary_round_aux_not_zero. lia.
Qed.

Lemma valid_exponent s m e :
  valid_binary (S754_finite s m e) = true -> emin64 <= e.
Proof.
  unfold valid_binary, SpecFloat.valid_binary, bounded, canonical_mantissa.
  rewrite fexp64. intros H. apply andb_prop in H. destruct H as [H _].
  apply Z.eqb_eq in H. lia.
Qed.

Lemma SFadd_neg_zero a b :
  valid_binary a = true -> valid_binary b = true ->
  SFadd prec emax a b = S754_zero true ->
  a = S754_zero true /\ b = S754_zero true.
Proof.
  intros Va Vb.
  destruct a as [sa|sa| |sa ma ea], b as [sb|sb| |sb mb eb]; cbn [SFadd]; intros E;
    try discriminate.
  - destruct sa, sb; try discriminate. auto.
  - destruct sa, sb; discriminate.
  - pose proof (valid_exponent _ _ _ Va) as Ha.
    pose proof (valid_exponent _ _ _ Vb) as Hb.
    unfold binary_normalize in E.
    destruct (cond_Zopp sa (Z.pos (fst (shl_align ma ea (Z.min ea eb)))) +
              cond_Zopp sb (Z.pos (fst (shl_align mb eb (Z.min ea eb))))) as [|p|p];
      [discriminate | |]; apply binary_round_not_zero in E;
      try contradiction; lia.
Qed.

Local Close Scope Z_scope.

(** The sum of two numbers is [-0] only when both are. *)
Lemma add_neg_zero (a b : float) :
  a + b = PrimFloat.neg_zero -> a = PrimFloat.neg_zero /\ b = PrimFloat.neg_zero.
Proof.
  intros E. apply (f_equal Prim2SF) in E. rewrite add_spec in E.
  change (Prim2SF PrimFloat.neg_zero) with (S754_zero true) in E.
  apply SFadd_neg_zero in E; try apply Prim2SF_valid.
  destruct E as [Ea Eb]. split; apply Prim2SF_inj; assumption.
Qed.

(** Adding a zero changes nothing, except that [-0 + 0] is [+0]. *)
Lemma add_zero (r s : float) :
  (s =? 0) = true ->
  r + s = r \/ (r = PrimFloat.neg_zero /\ r + s = 0).
Proof.
  intros Hs. rewrite FloatAxioms.eqb_spec in Hs.
  change (Prim2SF 0) with (S754_zero false) in Hs.
  pose proof (add_spec r s) as E. unfold SF64add in E.
  destruct (Prim2SF s) as [sb|sb| |sb sm se] eqn:Es;
    try discriminate; try (destruct sb; discriminate).
  destruct (Prim2SF r) as [rb|rb| |rb rm re] eqn:Er; cbn in E;
    try (left; apply Prim2SF_inj; congruence).
  destruct rb, sb; try (left; apply Prim2SF_inj; congruence).
  right. split; apply Prim2SF_inj; [rewrite Er | rewrite E]; reflexivity.
Qed.

(** Two binary64 numbers that [===] tells apart are different. *)
Lemma float_neq (a b : float) : (a =? b) = false -> (b =? b) = true -> a <> b.
Proof. intros Hab Hbb E. rewrite E, Hbb in Hab. discriminate. Qed.

(* ================================================================== *)
(** ** The capability probe *)

Section Probe.

Variable host : Host.t.

Lemma probe_never_throws : isWebGLAvailable host <> Js.Throw.
Proof.
  unfold isWebGLAvailable, Js.try_catch, Js.ret.
  destruct (Js.bind _ _); discriminate.
Qed.

Lemma probe_true_inv :
  isWebGLAvailable host = Js.Normal true ->
  exists canvas marker,
    Host.createElement host "canvas" = Js.Normal canvas
    /\ Host.WebGLRenderingContext host = Js.Normal marker
    /\ Js.truthy marker = true
    /\ contextObtained canvas.
Proof.
  unfold isWebGLAvailable, contextObtained.
  destruct (Host.createElement host "canvas") as [canvas|]; cbn; [|discriminate].
  destruct (Host.WebGLRenderingContext host) as [marker|]; cbn; [|discriminate].
  unfold Js.and_then.
  destruct (Js.truthy marker) eqn:Hm; cbn; [|rewrite Hm; discriminate].
  destruct (Host.getContext canvas "webgl") as [c1|] eqn:H1; cbn; [|discriminate].
  unfold Js.or_else.
  destruct (Js.truthy c1) eqn:Hc1; cbn.
  - intros _. exists canvas, marker. repeat split; auto. left. eauto.
  - destruct (Host.getContext canvas "experimental-webgl") as [c2|] eqn:H2; cbn;
      [|discriminate].
    destruct (Js.truthy c2) eqn:Hc2; [|discriminate].
    intros _. exists canvas, marker. repeat split; auto. right. exists c1, c2. auto.
Qed.

Lemma probe_failure_is_false : attemptThrows host -> isWebGLAvailable host = Js.Normal false.
Proof.
  unfold isWebGLAvailable.
  intros [H | c H1 H2 | c m H1 H2 Hm H3 | c m n H1 H2 Hm H3 Hn H4].
  - rewrite H. reflexivity.
  - rewrite H1; cbn. rewrite H2. reflexivity.
  - rewrite H1; cbn. rewrite H2; cbn. unfold Js.and_then. rewrite Hm, H3. reflexivity.
  - rewrite H1; cbn. rewrite H2; cbn. unfold Js.and_then. rewrite Hm, H3; cbn.
    unfold Js.or_else. rewrite Hn, H4. reflexivity.
Qed.

End Probe.

(** C9. The capability probe never propagates an exception: on every host
    it completes normally with a boolean, and that boolean is [false]
    whenever a step of the attempt throws.  It answers [true] only if the
    class marker [window.WebGLRenderingContext] is there (truthy) and
    [getContext] really handed out a context on the canvas created for the
    test. *)
Theorem C9_probe_total_and_sound (host : Host.t) :
  (exists b, isWebGLAvailable host = Js.Normal b)
  /\ (attemptThrows host -> isWebGLAvailable host = Js.Normal false)
  /\ (isWebGLAvailable host = Js.Normal true ->
      exists canvas marker,
        Host.createElement host "canvas" = Js.Normal canvas
        /\ Host.WebGLRenderingContext host = Js.Normal marker
        /\ Js.truthy marker = true
        /\ contextObtained canvas).
Proof.
  split; [|split].
  - pose proof (probe_never_throws host) as H.
    destruct (isWebGLAvailable host) as [b|]; [eauto | contradiction].
  - apply probe_failure_is_false.
  - apply probe_true_inv.
Qed.

(** The two implications of C9 at work: a browser whose probe answers
    true, with the canvas and context it found, and a browser whose
    [getContext] throws. *)
Lemma C9_probe_total_and_sound_witness :
  (exists canvas marker,
     Host.createElement webglBrowser "canvas" = Js.Normal canvas
     /\ Host.WebGLRenderingContext webglBrowser = Js.Normal marker
     /\ Js.truthy marker = true
     /\ contextObtained canvas)
  /\ isWebGLAvailable throwingBrowser = Js.Normal false.
Proof.
  split.
  - apply (C9_probe_total_and_sound webglBrowser). reflexivity.
  - apply (C9_probe_total_and_sound throwingBrowser).
    apply (getContext_throws throwingBrowser
             (Host.mkCanvas (fun _ => Js.Throw)) (Js.Object "Function"));
      reflexivity.
Defined.

Example probe_webglBrowser : isWebGLAvailable webglBrowser = Js.Normal true.
Proof. reflexivity. Qed.

Example probe_noContextBrowser : isWebGLAvailable noContextBrowser = Js.Normal false.
Proof. reflexivity. Qed.

Example probe_throwingBrowser : isWebGLAvailable throwingBrowser = Js.Normal false.
Proof. reflexivity. Qed.

(* ================================================================== *)
(** ** Listeners and liveness *)

Lemma fold_left_invariant (A B : Type) (f : A -> B -> A) (P : A -> Prop) :
  (forall a b, P a -> P (f a b)) -> forall l a, P a -> P (fold_left f l a).
Proof.
  intros Hf l. induction l as [|b l IH]; cbn; auto.
Qed.

Lemma dispatch_invariant (P : World -> Prop) tg ty call :
  (forall h w, P w -> P (call h w)) -> forall w, P w -> P (dispatch tg ty call w).
Proof.
  intros Hcall w Hw. unfold dispatch.
  apply fold_left_invariant; auto.
Qed.

(** [Live] depends on four things only. *)
Lemma Live_ext w w' :
  mounted w' = mounted w ->
  listeners w' = listeners w ->
  isSome (scope w') = isSome (scope w) ->
  isSome (rendererRef w') = isSome (rendererRef w) ->
  Live w -> Live w'.
Proof.
  intros Hm Hl Hs Hr (Lm & Ll & [s Ls] & [r Lr]).
  rewrite Ls in Hs. rewrite Lr in Hr.
  repeat split; try congruence.
  - destruct (scope w'); [eauto | discriminate].
  - destruct (rendererRef w'); [eauto | discriminate].
Qed.

Ltac live_ext :=
  match goal with
  | |- Live ?w -> Live _ =>
      apply Live_ext; destruct w as [? ? ? ? ? ? [?|] ? ? ? ? ? ? ? [?|]]; reflexivity
  end.

Lemma Live_in_scope f w : Live w -> Live (in_scope f w).
Proof. unfold in_scope. live_ext. Qed.

Lemma Live_onResize w : Live w -> Live (onResize w).
Proof. unfold onResize. live_ext. Qed.

Lemma Live_animate w : Live w -> Live (animate w).
Proof. unfold animate. live_ext. Qed.

Lemma Live_setState set w :
  (forall w0, Live w0 -> Live (set w0)) -> Live w -> Live (setState set w).
Proof.
  intros Hset Hw. unfold setState.
  destruct (mounted w); [|assumption].
  generalize (Hset w Hw). live_ext.
Qed.

Lemma Live_startAnimation w : Live w -> Live (startAnimation w).
Proof.
  intros Hw. unfold startAnimation, setIsLoading.
  apply Live_animate, Live_setState; [|assumption].
  intros w0. unfold set_isLoading. live_ext.
Qed.

Lemma Live_callMouse e h w : Live w -> Live (callMouse e h w).
Proof. destruct h; cbn; auto using Live_in_scope. Qed.

Lemma Live_callTouch e h w : Live w -> Live (callTouch e h w).
Proof. destruct h; cbn; auto using Live_in_scope. Qed.

Lemma Live_callWindow h w : Live w -> Live (callWindow h w).
Proof. destruct h; cbn; auto using Live_onResize. Qed.

Lemma Live_step w e : isUnmount e = false -> Live w -> Live (step w e).
Proof.
  intros He Hw. destruct e as [ty ev|ty ev|ty|cw ch|ms| | |value|]; cbn [step].
  - apply dispatch_invariant; auto using Live_callMouse.
  - apply dispatch_invariant; auto using Live_callTouch.
  - apply dispatch_invariant; auto using Live_callWindow.
  - revert Hw. unfold set_clientSize. live_ext.
  - revert Hw. unfold set_clock. live_ext.
  - unfold runTimers. apply fold_left_invariant.
    + intros a [t []] Ha. cbn. apply Live_startAnimation, Ha.
    + revert Hw. unfold set_timers. live_ext.
  - unfold animationFrame. apply fold_left_invariant.
    + intros a [] Ha. cbn. apply Live_animate, Ha.
    + revert Hw. unfold set_frameRequests. live_ext.
  - destruct (sliderDisplayed w); [|assumption].
    unfold onSpeedChange, forceUpdate.
    apply Live_setState.
    + intros w0. unfold set_updates. live_ext.
    + revert Hw. unfold set_rotationSpeedRef. live_ext.
  - discriminate.
Qed.

Lemma Live_run events : forall w, staysMounted events -> Live w -> Live (run w events).
Proof.
  unfold run. induction events as [|e events IH]; intros w Hev Hw; cbn; [assumption|].
  inversion Hev; subst. apply IH; [assumption|]. apply Live_step; assumption.
Qed.

Lemma Live_mount host : isWebGLAvailable host = Js.Normal true -> Live (mount host).
Proof.
  intros Hp. unfold mount, mountEffect. rewrite Hp.
  repeat split; cbn; eauto.
Qed.

(** Every widget whose probe succeeded is live until it is unmounted. *)
Lemma Live_reachable host history :
  isWebGLAvailable host = Js.Normal true -> staysMounted history ->
  Live (run (mount host) history).
Proof. intros Hp Hh. apply Live_run; [assumption|]. apply Live_mount, Hp. Qed.

(* ================================================================== *)
(** ** The gesture controller *)

(** On a live widget each gesture event reaches exactly its handler. *)
Lemma step_press d p w :
  Live w ->
  step w (press d p) =
  in_scope (fun s => set_previousPointerPosition p (set_isDragging true s)) w.
Proof.
  intros (_ & Hl & _). destruct p as [px py].
  destruct d; cbn [step press]; unfold dispatch; rewrite Hl; reflexivity.
Qed.

Lemma step_move d p w :
  Live w ->
  step w (move d p) =
  in_scope (fun s => if negb (isDragging s) then s else rotateBy (x p) (y p) s) w.
Proof.
  intros (_ & Hl & [s Hs] & _).
  destruct d; cbn [step move]; unfold dispatch; rewrite Hl; cbn; unfold in_scope;
    rewrite Hs; [reflexivity|].
  unfold onTouchMove; cbn. destruct (isDragging s); reflexivity.
Qed.

Lemma step_release d how p w :
  Live w -> step w (release d how p) = in_scope (set_isDragging false) w.
Proof.
  intros (_ & Hl & _).
  destruct d, how; cbn [step release]; unfold dispatch; rewrite Hl; reflexivity.
Qed.

Lemma rotation_in_scope f w s :
  scope w = Some s -> rotation (in_scope f w) = cube_rotation (f s).
Proof. intros Hs. unfold rotation, in_scope. rewrite Hs. reflexivity. Qed.

Lemma scope_in_scope f w s : scope w = Some s -> scope (in_scope f w) = Some (f s).
Proof. intros Hs. unfold in_scope. rewrite Hs. reflexivity. Qed.

Lemma run_cons w e events : run w (e :: events) = run (step w e) events.
Proof. reflexivity. Qed.

Lemma run_app w events events' : run w (events ++ events') = run (run w events) events'.
Proof. apply fold_left_app. Qed.

(** The moves of a drag, from a state where the drag is on. *)
Lemma run_moves d moves : forall w s,
  Live w -> scope w = Some s -> isDragging s = true ->
  exists s',
    scope (run w (map (move d) moves)) = Some s'
    /\ Live (run w (map (move d) moves))
    /\ isDragging s' = true
    /\ Three.y (cube_rotation s') =
       addAll (Three.y (cube_rotation s)) (increments x (previousPointerPosition s) moves)
    /\ Three.x (cube_rotation s') =
       addAll (Three.x (cube_rotation s)) (increments y (previousPointerPosition s) moves).
Proof.
  induction moves as [|p moves IH]; intros w s Hw Hs Hd.
  - exists s. cbn. auto.
  - cbn [map]. rewrite run_cons, (step_move d p w Hw).
    set (moved := fun s => if negb (isDragging s) then s else rotateBy (x p) (y p) s).
    destruct (IH (in_scope moved w) (moved s)) as (s' & Hs' & Hw' & Hd' & Hy & Hx).
    + apply Live_in_scope, Hw.
    + apply scope_in_scope, Hs.
    + unfold moved. rewrite Hd. exact Hd.
    + exists s'. unfold moved in Hy, Hx. rewrite Hd in Hy, Hx.
      destruct p as [px py]. exact (conj Hs' (conj Hw' (conj Hd' (conj Hy Hx)))).
Qed.

Section DragSequence.

Variables (d : Device) (start : Position) (moves : list Position)
          (how : Ending) (last : Position).

(** A whole drag, from any state of a live widget. *)
Lemma run_dragSequence w :
  Live w ->
  let w' := run w (dragSequence d start moves how last) in
  Three.y (rotation w') = addAll (Three.y (rotation w)) (increments x start moves)
  /\ Three.x (rotation w') = addAll (Three.x (rotation w)) (increments y start moves)
  /\ dragging w' = false
  /\ Live w'.
Proof.
  intros Hw. pose proof Hw as (_ & _ & [s Hs] & _).
  unfold dragSequence. rewrite run_cons, run_app, (step_press d start w Hw).
  set (pressed := fun s => set_previousPointerPosition start (set_isDragging true s)).
  destruct (run_moves d moves (in_scope pressed w) (pressed s))
    as (s' & Hs' & Hw' & Hd' & Hy & Hx).
  - apply Live_in_scope, Hw.
  - apply scope_in_scope, Hs.
  - reflexivity.
  - cbn [run fold_left]. rewrite (step_release d how last _ Hw').
    unfold rotation at 1 3, dragging. rewrite (scope_in_scope _ _ _ Hs'). cbn.
    unfold rotation. rewrite Hs.
    exact (conj Hy (conj Hx (conj eq_refl (Live_in_scope _ _ Hw')))).
Qed.

End DragSequence.

(** C1. A drag is a press, any number of moves and a release, by mouse or
    by one finger, on a widget whose scene exists.  Over the whole drag
    the gesture controller adds to the cube's Y rotation the terms
    [(current X - previous X) * 0.01] of the moves, one after the other,
    and to its X rotation the terms [(current Y - previous Y) * 0.01], the
    previous position of the first move being the press position (the
    additions are the binary64 ones of [+=], in the order of the events).
    In particular a press at (100,100), one move to (150,130) and a
    release add 0.5 to rotation.y and 0.3 to rotation.x. *)
Theorem C1_drag_adds_scaled_deltas
    (host : Host.t) (history : list Event)
    (d : Device) (start : Position) (moves : list Position)
    (how : Ending) (last : Position) :
  isWebGLAvailable host = Js.Normal true ->
  staysMounted history ->
  let w := run (mount host) history in
  let w' := run w (dragSequence d start moves how last) in
  let example := run w (dragSequence d (mkPosition 100 100) [mkPosition 150 130] how last) in
  (Three.y (rotation w') = addAll (Three.y (rotation w)) (increments x start moves)
   /\ Three.x (rotation w') = addAll (Three.x (rotation w)) (increments y start moves))
  /\ (Three.y (rotation example) = Three.y (rotation w) + 0.5
      /\ Three.x (rotation example) = Three.x (rotation w) + 0.3).
Proof.
  intros Hp Hh w w' example.
  pose proof (Live_reachable host history Hp Hh) as Hw. fold w in Hw.
  destruct (run_dragSequence d start moves how last w Hw) as (Hy & Hx & _).
  destruct (run_dragSequence d (mkPosition 100 100) [mkPosition 150 130] how last w Hw)
    as (Hy' & Hx' & _).
  split; split; assumption.
Qed.

Lemma C1_drag_adds_scaled_deltas_witness :
  let w := run (mount webglBrowser) [Elapse 500; RunTimers; AnimationFrame] in
  let moves := [mkPosition 130 90; mkPosition 150 130] in
  let w' := run w (dragSequence ByTouch (mkPosition 100 100) moves BrokenOff
                                (mkPosition 150 130)) in
  let example := run w (dragSequence ByTouch (mkPosition 100 100) [mkPosition 150 130]
                                     BrokenOff (mkPosition 150 130)) in
  (Three.y (rotation w') =
     addAll (Three.y (rotation w)) (increments x (mkPosition 100 100) moves)
   /\ Three.x (rotation w') =
     addAll (Three.x (rotation w)) (increments y (mkPosition 100 100) moves))
  /\ (Three.y (rotation example) = Three.y (rotation w) + 0.5
      /\ Three.x (rotation example) = Three.x (rotation w) + 0.3).
Proof.
  apply (C1_drag_adds_scaled_deltas webglBrowser [Elapse 500; RunTimers; AnimationFrame]).
  - reflexivity.
  - repeat constructor.
Defined.

(* ================================================================== *)
(** ** Multi-touch *)

Lemma rotation_in_scope_same f w :
  (forall s, cube_rotation (f s) = cube_rotation s) ->
  rotation (in_scope f w) = rotation w.
Proof.
  intros Hf. unfold rotation, in_scope.
  destruct (scope w) as [s|] eqn:Hs; cbn; [apply Hf | rewrite Hs; reflexivity].
Qed.

Lemma dragging_in_scope f w :
  dragging (in_scope f w) =
  match scope w with Some s => isDragging (f s) | None => false end.
Proof.
  unfold dragging, in_scope.
  destruct (scope w) as [s|] eqn:Hs; cbn; [reflexivity | rewrite Hs; reflexivity].
Qed.

(** With two contacts or more, no touch handler moves the cube or starts a
    drag. *)
Lemma callTouch_multi e h w :
  (2 <= List.length (touches e))%nat ->
  rotation (callTouch e h w) = rotation w
  /\ (dragging w = false -> dragging (callTouch e h w) = false).
Proof.
  intros Hlen.
  assert (Hone : Nat.eqb (List.length (touches e)) 1 = false)
    by (apply Nat.eqb_neq; lia).
  destruct h; cbn [callTouch]; auto.
  - split.
    + apply rotation_in_scope_same. intros s. unfold onTouchStart. rewrite Hone. reflexivity.
    + rewrite dragging_in_scope. unfold dragging, onTouchStart. rewrite Hone.
      destruct (scope w); auto.
  - split.
    + apply rotation_in_scope_same. intros s. unfold onTouchMove.
      rewrite Hone, orb_true_r. reflexivity.
    + rewrite dragging_in_scope. unfold dragging, onTouchMove.
      rewrite Hone. destruct (scope w) as [s|]; [|auto].
      rewrite orb_true_r. auto.
  - split.
    + apply rotation_in_scope_same. reflexivity.
    + rewrite dragging_in_scope. destruct (scope w); reflexivity.
Qed.

(** C3. In any state of the widget (so after any sequence of touch
    events), a touch event with two or more contacts, whatever its type,
    leaves the cube's rotation as it is, and leaves an idle drag state
    idle: a multi-contact touch-start begins no drag, and a multi-contact
    touch-move adds nothing to the rotation while a drag is on. *)
Theorem C3_multitouch_inert (w : World) (ty : string) (e : TouchEvent) :
  (2 <= List.length (touches e))%nat ->
  rotation (step w (Touches ty e)) = rotation w
  /\ (dragging w = false -> dragging (step w (Touches ty e)) = false).
Proof.
  intros Hlen. cbn [step].
  apply (dispatch_invariant
           (fun w' => rotation w' = rotation w /\ (dragging w = false -> dragging w' = false))).
  - intros h w' [Hr Hd]. destruct (callTouch_multi e h w' Hlen) as [Hr' Hd'].
    split; [congruence | auto].
  - auto.
Qed.

Lemma C3_multitouch_inert_witness :
  let w := run (mount webglBrowser) [press ByTouch (mkPosition 10 10)] in
  let e := mkTouchEvent [mkTouch 40 40; mkTouch 200 90] in
  (2 <= List.length (touches e))%nat
  /\ rotation (step w (Touches "touchmove" e)) = rotation w
  /\ (dragging w = false -> dragging (step w (Touches "touchmove" e)) = false).
Proof.
  split; [cbn; lia|].
  apply C3_multitouch_inert. cbn. lia.
Defined.

(* ================================================================== *)
(** ** Resize *)

Lemma step_resize w : Live w -> step w (WindowEvent "resize") = onResize w.
Proof.
  intros (_ & Hl & _). cbn [step]. unfold dispatch. rewrite Hl. reflexivity.
Qed.

(** C8. Whatever width and height the container has when a resize event
    is handled, afterwards the camera's aspect ratio is that width divided
    by that height, the camera's projection has been recomputed from it,
    and the renderer has the container's width and height. *)
Theorem C8_resize_follows_container
    (host : Host.t) (history : list Event) (width height : float) :
  isWebGLAvailable host = Js.Normal true ->
  staysMounted history ->
  let w := run (mount host) (history ++ [Layout width height; WindowEvent "resize"]) in
  clientWidth w = width /\ clientHeight w = height
  /\ exists s renderer,
       scope w = Some s /\ rendererRef w = Some renderer
       /\ Three.aspect (camera s) = clientWidth w / clientHeight w
       /\ Three.projectionMatrix (camera s) =
          Three.mkProjection (Three.fov (camera s)) (clientWidth w / clientHeight w)
                             (Three.near (camera s)) (Three.far (camera s))
       /\ Three.width renderer = clientWidth w
       /\ Three.height renderer = clientHeight w.
Proof.
  intros Hp Hh. rewrite run_app.
  pose proof (Live_reachable host history Hp Hh) as Hw.
  set (w0 := run (mount host) history) in *.
  assert (Hw1 : Live (step w0 (Layout width height))) by (apply Live_step; auto).
  rewrite run_cons. cbn [run fold_left]. rewrite (step_resize _ Hw1).
  destruct Hw1 as (_ & _ & [s Hs] & [r Hr]).
  unfold onResize. rewrite Hs, Hr. cbn.
  split; [reflexivity|]. split; [reflexivity|].
  eexists. eexists. repeat split.
Qed.

Lemma C8_resize_follows_container_witness :
  let w := run (mount webglBrowser)
               ([Elapse 500; RunTimers] ++ [Layout 800 450; WindowEvent "resize"]) in
  clientWidth w = 800 /\ clientHeight w = 450
  /\ exists s renderer,
       scope w = Some s /\ rendererRef w = Some renderer
       /\ Three.aspect (camera s) = clientWidth w / clientHeight w
       /\ Three.projectionMatrix (camera s) =
          Three.mkProjection (Three.fov (camera s)) (clientWidth w / clientHeight w)
                             (Three.near (camera s)) (Three.far (camera s))
       /\ Three.width renderer = clientWidth w
       /\ Three.height renderer = clientHeight w.
Proof.
  apply (C8_resize_follows_container webglBrowser [Elapse 500; RunTimers] 800 450).
  - reflexivity.
  - repeat constructor.
Defined.

(* ================================================================== *)
(** ** Invariants of the event loop *)

(** A property kept by the gesture handlers and by the resize handler is
    kept by every DOM event, whatever listeners are registered. *)
Lemma step_dom_event_invariant (P : World -> Prop) :
  (forall f w, GestureHandler f -> P w -> P (in_scope f w)) ->
  (forall w, P w -> P (onResize w)) ->
  forall w e, isDomEvent e = true -> P w -> P (step w e).
Proof.
  intros Hscope Hresize w e He Hw.
  destruct e; try discriminate; cbn [step]; apply dispatch_invariant; auto;
    intros h w' Hw'; destruct h; cbn; auto using GestureHandler.
Qed.

(** *** A widget whose probe failed *)

Lemma Inert_mount host : isWebGLAvailable host = Js.Normal false -> Inert (mount host).
Proof.
  intros Hp. unfold mount, mountEffect. rewrite Hp. constructor; reflexivity.
Qed.

Lemma Inert_step w e : Inert w -> Inert (step w e).
Proof.
  intros [Hr Hc Hs Hl Ht Hf Hsup Hld Hv Hu Hd].
  destruct w as [m ld sup u d v r cw ch ca ls ts fs t s]; cbn in *; subst.
  destruct e as [ty ev|ty ev|ty|cw' ch'|ms| | |value|];
    try (constructor; reflexivity).
  - cbn. unfold sliderDisplayed. cbn. destruct m; constructor; reflexivity.
  - cbn. unfold unmount. cbn. destruct m; constructor; reflexivity.
Qed.

Lemma Inert_run events : forall w, Inert w -> Inert (run w events).
Proof.
  induction events as [|e events IH]; intros w Hw; [assumption|].
  rewrite run_cons. apply IH, Inert_step, Hw.
Qed.

(** Only the unmount takes the widget off the page. *)
Lemma mounted_in_scope f w : mounted (in_scope f w) = mounted w.
Proof. unfold in_scope. destruct (scope w); reflexivity. Qed.

Lemma mounted_onResize w : mounted (onResize w) = mounted w.
Proof. unfold onResize. destruct (scope w), (rendererRef w); reflexivity. Qed.

Lemma mounted_animate w : mounted (animate w) = mounted w.
Proof. unfold animate. destruct (scope w), (rendererRef w); reflexivity. Qed.

Lemma mounted_setState set w :
  (forall w0, mounted (set w0) = mounted w0) -> mounted (setState set w) = mounted w.
Proof.
  intros Hset. unfold setState. destruct (mounted w) eqn:Hm; [|exact Hm].
  cbn. rewrite Hset. exact Hm.
Qed.

Lemma mounted_startAnimation w : mounted (startAnimation w) = mounted w.
Proof.
  unfold startAnimation, setIsLoading. rewrite mounted_animate.
  apply mounted_setState. reflexivity.
Qed.

Lemma mounted_step w e :
  mounted (step w e) = if isUnmount e then false else mounted w.
Proof.
  destruct e as [ty ev|ty ev|ty|cw ch|ms| | |value|]; cbn [step isUnmount];
    try reflexivity;
    try (apply (dispatch_invariant (fun w' => mounted w' = mounted w)); [|reflexivity];
         intros h w' Hw'; destruct h; cbn;
         rewrite ?mounted_in_scope, ?mounted_onResize; exact Hw').
  - unfold runTimers.
    apply (fold_left_invariant _ _ _ (fun w' => mounted w' = mounted w)); [|reflexivity].
    intros w' [t []] Hw'. cbn. rewrite mounted_startAnimation. exact Hw'.
  - unfold animationFrame.
    apply (fold_left_invariant _ _ _ (fun w' => mounted w' = mounted w)); [|reflexivity].
    intros w' [] Hw'. cbn. rewrite mounted_animate. exact Hw'.
  - destruct (sliderDisplayed w); [|reflexivity].
    unfold onSpeedChange, forceUpdate. rewrite mounted_setState; reflexivity.
  - unfold unmount. destruct (mounted w) eqn:Hm; [reflexivity | exact Hm].
Qed.

Lemma mounted_run events : forall w,
  mounted (run w events) = andb (mounted w) (negb (existsb isUnmount events)).
Proof.
  induction events as [|e events IH]; intros w.
  - cbn. rewrite andb_true_r. reflexivity.
  - rewrite run_cons, IH, mounted_step. cbn [existsb].
    destruct (isUnmount e), (mounted w); reflexivity.
Qed.

Lemma mounted_mount host : mounted (mount host) = true.
Proof.
  unfold mount, mountEffect. destruct (isWebGLAvailable host) as [[|]|]; reflexivity.
Qed.

(** C5. When the probe answers false at mount then, whatever happens to
    the widget afterwards, there is no renderer and no canvas in the
    container, the scene objects do not exist, no listener is registered,
    no timer and no frame callback is pending, and the speed is untouched.
    The widget is on the page from the mount on, until it is unmounted if
    it ever is, and what it displays all that time is the fallback view,
    the message and the fallback image; once unmounted it displays
    nothing. *)
Theorem C5_probe_failure_is_inert (host : Host.t) (history : list Event) :
  isWebGLAvailable host = Js.Normal false ->
  let w := run (mount host) history in
  rendererRef w = None /\ canvasAttached w = false
  /\ scope w = None
  /\ listeners w = []
  /\ timers w = [] /\ frameRequests w = []
  /\ rotationSpeedRef w = 0.01 /\ updates w = 0
  /\ dom w = (if mounted w then
                Some (FallbackView "Your browser does not support WebGL." "/fallback.png")
              else None)
  /\ mounted w = negb (existsb isUnmount history)
  /\ dom w = (if existsb isUnmount history then None
              else Some (FallbackView "Your browser does not support WebGL."
                                      "/fallback.png")).
Proof.
  intros Hp w.
  destruct (Inert_run history _ (Inert_mount host Hp))
    as [Hr Hc Hs Hl Ht Hf Hsup Hld Hv Hu Hd].
  fold w in Hr, Hc, Hs, Hl, Ht, Hf, Hv, Hu, Hd.
  assert (Hm : mounted w = negb (existsb isUnmount history)).
  { unfold w. rewrite mounted_run, mounted_mount. reflexivity. }
  repeat (split; [assumption|]).
  rewrite Hd, Hm. destruct (existsb isUnmount history); reflexivity.
Qed.

(** A browser without a context: the fallback view is displayed at the
    mount and still after every kind of event. *)
Lemma C5_probe_failure_is_inert_witness :
  let w := run (mount noContextBrowser)
               [Elapse 500; RunTimers; AnimationFrame;
                press ByMouse (mkPosition 1 1); move ByMouse (mkPosition 9 9);
                WindowEvent "resize"; SliderChange "0.05"] in
  rendererRef w = None /\ canvasAttached w = false
  /\ scope w = None
  /\ listeners w = []
  /\ timers w = [] /\ frameRequests w = []
  /\ rotationSpeedRef w = 0.01 /\ updates w = 0
  /\ dom w = (if mounted w then
                Some (FallbackView "Your browser does not support WebGL." "/fallback.png")
              else None)
  /\ mounted w = true
  /\ dom w = Some (FallbackView "Your browser does not support WebGL." "/fallback.png").
Proof.
  apply (C5_probe_failure_is_inert noContextBrowser). reflexivity.
Defined.

(** *** Properties that the routine work of the host cannot break *)

Lemma Stable_step (P : World -> Prop) :
  Stable P ->
  forall w e, isSliderChange e = false -> isUnmount e = false -> P w -> P (step w e).
Proof.
  intros [Hscope Hresize Hanimate Hloading Hsize Hclock Htimers Hframes] w e Hs Hu Hw.
  destruct e as [ty ev|ty ev|ty|cw ch|ms| | |value|]; try discriminate.
  - apply step_dom_event_invariant; auto.
  - apply step_dom_event_invariant; auto.
  - apply step_dom_event_invariant; auto.
  - apply Hsize, Hw.
  - apply Hclock, Hw.
  - cbn [step]. unfold runTimers. apply fold_left_invariant; [|auto].
    intros a [t []] Ha. cbn. unfold startAnimation. auto.
  - cbn [step]. unfold animationFrame. apply fold_left_invariant; [|auto].
    intros a [] Ha. cbn. auto.
Qed.

Ltac world_cases w :=
  let m := fresh "m" in
  destruct w as [m ? ? ? ? ? [?|] ? ? ? ? ? ? ? [?|]]; destruct m; cbn in *.

Ltac stable :=
  constructor; intros;
  unfold in_scope, onResize, animate, setIsLoading, setState;
  match goal with w : World |- _ => world_cases w end;
  auto.

(** *** What is displayed is the last render *)

Lemma Stable_Synced : Stable Synced.
Proof. unfold Synced. stable. Qed.

Lemma Synced_setState set w : mounted (set w) = mounted w -> Synced w -> Synced (setState set w).
Proof.
  unfold Synced, setState. intros Hm Hw.
  destruct (mounted w) eqn:Hmw; [|rewrite Hmw; exact Hw].
  destruct (set w); cbn in *. rewrite Hm. reflexivity.
Qed.

Lemma Synced_step w e : Synced w -> Synced (step w e).
Proof.
  intros Hw. destruct (isSliderChange e) eqn:Hs; [|destruct (isUnmount e) eqn:Hu].
  - destruct e; try discriminate. cbn [step].
    destruct (sliderDisplayed w); [|assumption].
    unfold onSpeedChange, forceUpdate, setState, Synced in *.
    world_cases w; auto.
  - destruct e; try discriminate. cbn [step]. unfold unmount, Synced in *.
    destruct (mounted w) eqn:Hm; [reflexivity | rewrite Hm; assumption].
  - apply Stable_step; auto using Stable_Synced.
Qed.

Lemma Synced_mount host : Synced (mount host).
Proof.
  unfold mount, mountEffect.
  destruct (isWebGLAvailable host) as [[|]|]; reflexivity.
Qed.

Lemma Synced_run events : forall w, Synced w -> Synced (run w events).
Proof.
  induction events as [|e events IH]; intros w Hw; [assumption|].
  rewrite run_cons. apply IH, Synced_step, Hw.
Qed.

(** *** Only the slider changes the speed *)

Lemma Stable_speed v : Stable (fun w => rotationSpeedRef w = v).
Proof. stable. Qed.

Lemma speed_unmount w : rotationSpeedRef (unmount w) = rotationSpeedRef w.
Proof.
  unfold unmount, cleanup, in_scope. world_cases w; reflexivity.
Qed.

Lemma speed_step w e :
  isSliderChange e = false -> rotationSpeedRef (step w e) = rotationSpeedRef w.
Proof.
  intros Hs. destruct (isUnmount e) eqn:Hu.
  - destruct e; try discriminate. apply speed_unmount.
  - apply (Stable_step _ (Stable_speed (rotationSpeedRef w))); auto.
Qed.

Lemma speed_run events : forall w,
  Forall (fun e => isSliderChange e = false) events ->
  rotationSpeedRef (run w events) = rotationSpeedRef w.
Proof.
  induction events as [|e events IH]; intros w Hev; [reflexivity|].
  inversion Hev; subst. rewrite run_cons, IH, speed_step; auto.
Qed.

Lemma toFixed_default : Number.toFixed 0.01 3 = Some "0.010".
Proof. vm_compute. reflexivity. Qed.

(** C10. As long as the speed control has not been used, the rotation
    speed is 0.01, which is not zero; whenever the main view is displayed
    its slider stands at 0.01 and its readout is "0.010", the speed with 3
    decimals, and that is the view a successful mount displays.  The loop
    rotates the cube from its first run: after the start-up delay the
    cube's Y rotation is 0.01. *)
Theorem C10_default_speed (host : Host.t) (history : list Event) :
  Forall (fun e => isSliderChange e = false) history ->
  let w := run (mount host) history in
  rotationSpeedRef w = 0.01
  /\ (rotationSpeedRef w =? 0) = false
  /\ (forall spinner value readout,
        dom w = Some (MainView spinner value readout) ->
        value = 0.01 /\ readout = Some "0.010")
  /\ (isWebGLAvailable host = Js.Normal true ->
      dom (mount host) = Some (MainView true 0.01 (Some "0.010"))
      /\ Three.y (rotation (run (mount host) [Elapse 500; RunTimers])) = 0.01).
Proof.
  intros Hh w.
  assert (Hv : rotationSpeedRef w = 0.01).
  { unfold w. rewrite speed_run by assumption.
    unfold mount, mountEffect. destruct (isWebGLAvailable host) as [[|]|]; reflexivity. }
  split; [exact Hv|]. split; [rewrite Hv; reflexivity|]. split.
  - intros spinner value readout Hd.
    pose proof (Synced_run history _ (Synced_mount host)) as Hs.
    fold w in Hs. unfold Synced in Hs. rewrite Hd in Hs.
    destruct (mounted w); [|discriminate].
    unfold render in Hs. rewrite Hv, toFixed_default in Hs.
    destruct (negb (webglSupported w)); [discriminate|].
    injection Hs as _ Hvalue Hreadout. split; assumption.
  - intros Hp. unfold mount, mountEffect. rewrite Hp. split; vm_compute; reflexivity.
Qed.

Lemma C10_default_speed_witness :
  let w := run (mount webglBrowser)
               [Elapse 500; RunTimers; AnimationFrame; press ByMouse (mkPosition 3 4)] in
  rotationSpeedRef w = 0.01
  /\ (rotationSpeedRef w =? 0) = false
  /\ (forall spinner value readout,
        dom w = Some (MainView spinner value readout) ->
        value = 0.01 /\ readout = Some "0.010")
  /\ (isWebGLAvailable webglBrowser = Js.Normal true ->
      dom (mount webglBrowser) = Some (MainView true 0.01 (Some "0.010"))
      /\ Three.y (rotation (run (mount webglBrowser) [Elapse 500; RunTimers])) = 0.01).
Proof.
  apply (C10_default_speed webglBrowser). repeat constructor.
Defined.

(* ================================================================== *)
(** ** Start-up: the loading flag and the start of the loop *)

Lemma Phase_mount host : isWebGLAvailable host = Js.Normal true -> Phase (mount host).
Proof.
  intros Hp. unfold mount, mountEffect. rewrite Hp. apply Loading; reflexivity.
Qed.

Lemma Phase_scene_handlers w (f : World -> World) :
  (forall w0, timers (f w0) = timers w0 /\ isLoading (f w0) = isLoading w0
              /\ frameRequests (f w0) = frameRequests w0
              /\ framesDrawn (f w0) = framesDrawn w0 /\ clock (f w0) = clock w0) ->
  Phase w -> Phase (f w).
Proof.
  intros Hf Hw. destruct (Hf w) as (Ht & Hl & Hq & Hn & Hc).
  destruct Hw; [apply Loading | apply Looping]; congruence.
Qed.

Lemma Phase_step w e : isUnmount e = false -> Live w -> Phase w -> Phase (step w e).
Proof.
  intros Hu (Hm & _ & [s Hs] & [r Hr]) Hw.
  destruct e as [ty ev|ty ev|ty|cw ch|ms| | |value|]; try discriminate;
    try (apply step_dom_event_invariant; [| |reflexivity|assumption];
         [ intros f w0 _; apply Phase_scene_handlers; intros w1;
           unfold in_scope, framesDrawn; world_cases w1; auto
         | intros w0; apply Phase_scene_handlers; intros w1;
           unfold onResize, framesDrawn; world_cases w1; auto ]).
  - revert Hw. apply Phase_scene_handlers. intros w1. unfold framesDrawn. world_cases w1; auto.
  - destruct Hw as [Ht Hl Hq Hn | Ht Hl Hq Hc]; [apply Loading | apply Looping];
      try assumption.
    cbn. lia.
  - destruct w as [m ld sup u d v r' cw ch ca ls ts fs t s']; cbn in *; subst.
    destruct Hw as [Ht Hl Hq Hn | Ht Hl Hq Hc]; cbn in *; subst.
    + unfold runTimers; cbn. destruct (500 <=? t)%Z eqn:Hdue; cbn.
      * apply Looping; try reflexivity. cbn. lia.
      * apply Loading; try reflexivity. exact Hn.
    + apply Looping; try reflexivity. exact Hc.
  - destruct w as [m ld sup u d v r' cw ch ca ls ts fs t s']; cbn in *; subst.
    destruct Hw as [Ht Hl Hq Hn | Ht Hl Hq Hc]; cbn in *; subst.
    + apply Loading; try reflexivity. exact Hn.
    + apply Looping; try reflexivity. exact Hc.
  - cbn [step]. destruct (sliderDisplayed w); [|assumption].
    revert Hw. apply Phase_scene_handlers. intros w1.
    unfold onSpeedChange, forceUpdate, setState, framesDrawn. world_cases w1; auto.
Qed.

Lemma Phase_reachable host history :
  isWebGLAvailable host = Js.Normal true -> staysMounted history ->
  Phase (run (mount host) history).
Proof.
  intros Hp Hh.
  cut (Live (run (mount host) history) /\ Phase (run (mount host) history)); [tauto|].
  generalize (conj (Live_mount host Hp) (Phase_mount host Hp)).
  generalize (mount host) as w.
  induction Hh as [|e events He Hev IH]; intros w [Hl Hw]; [auto|].
  rewrite run_cons. apply IH. split; [apply Live_step | apply Phase_step]; assumption.
Qed.

Lemma Stable_not_loading : Stable (fun w => isLoading w = false).
Proof. stable. Qed.

Lemma not_loading_step w e : isLoading w = false -> isLoading (step w e) = false.
Proof.
  intros Hw. destruct (isSliderChange e) eqn:Hs; [|destruct (isUnmount e) eqn:Hu].
  - destruct e; try discriminate. cbn [step].
    destruct (sliderDisplayed w); [|assumption].
    unfold onSpeedChange, forceUpdate, setState. world_cases w; auto.
  - destruct e; try discriminate. cbn [step].
    unfold unmount, cleanup, in_scope. world_cases w; auto.
  - apply (Stable_step _ Stable_not_loading); auto.
Qed.

Lemma not_loading_run events : forall w,
  isLoading w = false -> isLoading (run w events) = false.
Proof.
  induction events as [|e events IH]; intros w Hw; [assumption|].
  rewrite run_cons. apply IH, not_loading_step, Hw.
Qed.

(** The timer that is due starts the loop and clears the flag. *)
Lemma runTimers_when_due w :
  Live w -> Phase w -> (500 <= clock w)%Z ->
  isLoading (step w RunTimers) = false
  /\ frameRequests (step w RunTimers) = [Animate].
Proof.
  intros (Hm & _ & [s Hs] & [r Hr]) Hw Hdue.
  destruct w as [m ld sup u d v r' cw ch ca ls ts fs t s']; cbn in *; subst.
  destruct Hw as [Ht Hl Hq Hn | Ht Hl Hq Hc]; cbn in *; subst.
  - unfold runTimers; cbn. apply Z.leb_le in Hdue. rewrite Hdue. cbn. auto.
  - auto.
Qed.

(** C7, as the code has it.  When the probe succeeded, the loading flag of
    a mounted widget is true exactly as long as the timer of line 161 is
    pending: it is true while less than 500 ms have passed since the
    mount, it is false once the host has run the timer after those 500 ms,
    and once false it stays false whatever happens.  When the probe failed
    at mount, no timer was set and the flag is true for the rest of the
    widget's life (the fallback view shows no spinner). *)
Theorem C7_loading_flag (host : Host.t) (history : list Event) :
  staysMounted history ->
  let w := run (mount host) history in
  (isWebGLAvailable host = Js.Normal true ->
     ((timers w = [mkTimer 500 StartAnimation] /\ isLoading w = true)
      \/ (timers w = [] /\ isLoading w = false))
     /\ ((clock w < 500)%Z -> isLoading w = true)
     /\ ((500 <= clock w)%Z -> isLoading (step w RunTimers) = false)
     /\ (isLoading w = false -> forall later, isLoading (run w later) = false))
  /\ (isWebGLAvailable host = Js.Normal false ->
      isLoading w = true /\ timers w = []).
Proof.
  intros Hh w. split.
  - intros Hp.
    pose proof (Live_reachable host history Hp Hh) as Hl.
    pose proof (Phase_reachable host history Hp Hh) as Hw.
    fold w in Hl, Hw. split; [|split; [|split]].
    + destruct Hw as [Ht Hld Hq Hn | Ht Hld Hq Hc']; auto.
    + intros Hc. destruct Hw as [Ht Hld Hq Hn | Ht Hld Hq Hc']; [assumption | lia].
    + intros Hc. apply runTimers_when_due; assumption.
    + intros Hld later. apply not_loading_run, Hld.
  - intros Hp.
    destruct (Inert_run history _ (Inert_mount host Hp))
      as [_ _ _ _ Ht _ _ Hld _ _ _].
    split; assumption.
Qed.

Lemma C7_loading_flag_witness :
  let w := run (mount webglBrowser) [Elapse 200; RunTimers; Elapse 300] in
  (isWebGLAvailable webglBrowser = Js.Normal true ->
     ((timers w = [mkTimer 500 StartAnimation] /\ isLoading w = true)
      \/ (timers w = [] /\ isLoading w = false))
     /\ ((clock w < 500)%Z -> isLoading w = true)
     /\ ((500 <= clock w)%Z -> isLoading (step w RunTimers) = false)
     /\ (isLoading w = false -> forall later, isLoading (run w later) = false))
  /\ (isWebGLAvailable webglBrowser = Js.Normal false ->
      isLoading w = true /\ timers w = []).
Proof.
  apply (C7_loading_flag webglBrowser). repeat constructor.
Defined.

(** C7 as stated fails when the probe fails: long after the 500 ms, with
    the timers run, the flag of the mounted widget is still true. *)
Lemma C7_flag_stays_true_without_webgl :
  let w := run (mount noContextBrowser) [Elapse 500; RunTimers; Elapse 60000; RunTimers] in
  isWebGLAvailable noContextBrowser = Js.Normal false
  /\ mounted w = true
  /\ clock w = 60500%Z
  /\ isLoading w <> false.
Proof.
  vm_compute. repeat split. discriminate.
Qed.

(* ================================================================== *)
(** ** The animation loop *)

Lemma LoopOn_frame w :
  LoopOn w ->
  let w' := step w AnimationFrame in
  LoopOn w'
  /\ rotationSpeedRef w' = rotationSpeedRef w
  /\ Three.y (rotation w') = Three.y (rotation w) + rotationSpeedRef w
  /\ Three.x (rotation w') = Three.x (rotation w)
  /\ framesDrawn w' = S (framesDrawn w).
Proof.
  intros ([s Hs] & [r Hr] & Hq).
  destruct w as [m ld sup u d v r' cw ch ca ls ts fs t s']; cbn in *; subst.
  cbn. unfold LoopOn. cbn. split; [eauto|]. repeat split.
Qed.

Lemma LoopOn_frames n : forall w,
  LoopOn w ->
  let w' := run w (repeat AnimationFrame n) in
  LoopOn w'
  /\ rotationSpeedRef w' = rotationSpeedRef w
  /\ Three.y (rotation w') = addTimes n (rotationSpeedRef w) (Three.y (rotation w))
  /\ Three.x (rotation w') = Three.x (rotation w)
  /\ framesDrawn w' = (framesDrawn w + n)%nat.
Proof.
  induction n as [|n IH]; intros w Hw.
  - cbn. rewrite Nat.add_0_r. auto.
  - cbn [repeat]. rewrite run_cons.
    destruct (LoopOn_frame w Hw) as (Hw1 & Hv1 & Hy1 & Hx1 & Hn1).
    destruct (IH _ Hw1) as (Hw' & Hv' & Hy' & Hx' & Hn').
    cbn zeta. rewrite Hv', Hy', Hx', Hn', Hv1, Hy1, Hx1, Hn1.
    split; [exact Hw'|]. split; [reflexivity|]. split; [reflexivity|].
    split; [reflexivity | lia].
Qed.

Lemma LoopOn_unmount w : LoopOn w -> LoopOn (unmount w).
Proof.
  intros ([s Hs] & [r Hr] & Hq).
  destruct w as [m ld sup u d v r' cw ch ca ls ts fs t s']; cbn in *; subst.
  unfold unmount, LoopOn. destruct m; cbn; eauto.
Qed.

Lemma framesDrawn_unmount w : framesDrawn (unmount w) = framesDrawn w.
Proof. unfold unmount, cleanup, in_scope, framesDrawn. world_cases w; reflexivity. Qed.

(** Unmounting does not stop a loop that is on: every later frame still
    runs [animate] and draws. *)
Lemma loop_outlives_unmount w n :
  LoopOn w ->
  framesDrawn (run w (Unmount :: repeat AnimationFrame n)) = (framesDrawn w + n)%nat.
Proof.
  intros Hw. rewrite run_cons. cbn [step].
  destruct (LoopOn_frames n _ (LoopOn_unmount w Hw)) as (_ & _ & _ & _ & Hn).
  cbn zeta in Hn. rewrite Hn, framesDrawn_unmount. reflexivity.
Qed.

(** The loop does not run before the 500 ms are over. *)
Lemma no_frame_before_delay host history :
  isWebGLAvailable host = Js.Normal true -> staysMounted history ->
  let w := run (mount host) history in
  (clock w < 500)%Z -> framesDrawn w = 0%nat /\ frameRequests w = [].
Proof.
  intros Hp Hh w Hc.
  destruct (Phase_reachable host history Hp Hh) as [Ht Hld Hq Hn | Ht Hld Hq Hc'];
    [auto | fold w in Hc'; lia].
Qed.

(** C2 at a concrete widget.  The widget is mounted, its loop has started
    and drawn two frames, and it is unmounted: the cleanup has removed the
    listeners and disposed of the renderer, yet [animate] is still
    requested, and three more frames draw three more times and turn the
    cube.  Unmounting before the delay is over does not help either: the
    timer still fires and starts the loop on the unmounted widget. *)
Theorem C2_loop_survives_unmount :
  let w := run (mount webglBrowser) [Elapse 500; RunTimers; AnimationFrame; Unmount] in
  let w' := run w (repeat AnimationFrame 3) in
  let early := run (mount webglBrowser) [Unmount; Elapse 500; RunTimers; AnimationFrame] in
  (mounted w = false /\ listeners w = [] /\ frameRequests w = [Animate]
   /\ framesDrawn w = 2%nat /\ Three.y (rotation w) = 0.02)
  /\ (framesDrawn w' = 5%nat /\ Three.y (rotation w') = 0.05 /\ frameRequests w' = [Animate])
  /\ (mounted early = false /\ framesDrawn early = 2%nat /\ frameRequests early = [Animate]).
Proof.
  vm_compute. repeat split.
Qed.

Lemma LoopOn_reachable host history :
  isWebGLAvailable host = Js.Normal true -> staysMounted history ->
  isLoading (run (mount host) history) = false ->
  LoopOn (run (mount host) history).
Proof.
  intros Hp Hh Hld.
  destruct (Live_reachable host history Hp Hh) as (_ & _ & Hs & Hr).
  destruct (Phase_reachable host history Hp Hh) as [Ht Hld' Hq Hn | Ht Hld' Hq Hc].
  - congruence.
  - unfold LoopOn. auto.
Qed.

(** C6, as the code has it.  Once the loop runs, [n] animation frames
    without any other event leave in the cube's Y rotation its old value
    with the current speed added [n] times, one binary64 addition per
    frame, and leave the X rotation alone.  At speed 0.01, 100 frames
    starting from 0 give 1.0000000000000007. *)
Theorem C6_frames_add_speed (host : Host.t) (history : list Event) (n : nat) :
  isWebGLAvailable host = Js.Normal true ->
  staysMounted history ->
  let w := run (mount host) history in
  isLoading w = false ->
  let w' := run w (repeat AnimationFrame n) in
  (Three.y (rotation w') = addTimes n (rotationSpeedRef w) (Three.y (rotation w))
   /\ Three.x (rotation w') = Three.x (rotation w)
   /\ framesDrawn w' = (framesDrawn w + n)%nat)
  /\ addTimes 100 0.01 0 = 1.0000000000000007.
Proof.
  intros Hp Hh w Hld w'.
  destruct (LoopOn_frames n w (LoopOn_reachable host history Hp Hh Hld))
    as (_ & _ & Hy & Hx & Hn).
  split; [auto|]. vm_compute. reflexivity.
Qed.

Lemma C6_frames_add_speed_witness :
  let w := run (mount webglBrowser) [Elapse 500; RunTimers] in
  isLoading w = false
  /\ (let w' := run w (repeat AnimationFrame 100) in
      (Three.y (rotation w') = addTimes 100 (rotationSpeedRef w) (Three.y (rotation w))
       /\ Three.x (rotation w') = Three.x (rotation w)
       /\ framesDrawn w' = (framesDrawn w + 100)%nat)
      /\ addTimes 100 0.01 0 = 1.0000000000000007).
Proof.
  split; [reflexivity|].
  apply (C6_frames_add_speed webglBrowser [Elapse 500; RunTimers] 100).
  - reflexivity.
  - repeat constructor.
  - reflexivity.
Defined.

(** C6 as stated fails.  The loop has just started, the speed is 0.01 and
    nothing is dragged: the first hundred runs of the frame callback take
    the Y rotation from 0 to 1.0000000000000007, and the next hundred from
    there to 2.0000000000000013; neither increase is 1.0, whether it is
    read as the difference of the two values or as adding 1.0 to the
    first. *)
Lemma C6_hundred_frames_miss_one :
  let w0 := run (mount webglBrowser) [Elapse 500] in
  let w1 := run w0 (RunTimers :: repeat AnimationFrame 99) in
  let w2 := run w1 (repeat AnimationFrame 100) in
  (rotationSpeedRef w0 = 0.01 /\ rotationSpeedRef w1 = 0.01 /\ rotationSpeedRef w2 = 0.01)
  /\ (framesDrawn w0 = 0%nat /\ framesDrawn w1 = 100%nat /\ framesDrawn w2 = 200%nat)
  /\ Three.y (rotation w0) = 0
  /\ Three.y (rotation w1) = 1.0000000000000007
  /\ Three.y (rotation w2) = 2.0000000000000013
  /\ Three.y (rotation w1) <> Three.y (rotation w0) + 1
  /\ Three.y (rotation w1) - Three.y (rotation w0) <> 1
  /\ Three.y (rotation w2) <> Three.y (rotation w1) + 1
  /\ Three.y (rotation w2) - Three.y (rotation w1) <> 1.
Proof.
  cbv zeta.
  repeat match goal with
         | |- _ /\ _ => split
         | |- _ <> _ => apply float_neq; vm_compute; reflexivity
         | |- _ = _ => vm_compute; reflexivity
         end.
Qed.

(* ================================================================== *)
(** ** The speed control *)

(** Every [+=] on the rotation keeps it off the negative zero. *)
Lemma NotNegativeZero_in_scope f w :
  (forall s, Three.y (cube_rotation s) <> PrimFloat.neg_zero ->
             Three.y (cube_rotation (f s)) <> PrimFloat.neg_zero) ->
  NotNegativeZero w -> NotNegativeZero (in_scope f w).
Proof.
  unfold NotNegativeZero, rotation, in_scope. intros Hf.
  destruct (scope w) as [s|] eqn:Hs; cbn; [apply Hf | rewrite Hs; auto].
Qed.

Lemma rotateBy_not_negative_zero cx cy s :
  Three.y (cube_rotation s) <> PrimFloat.neg_zero ->
  Three.y (cube_rotation (rotateBy cx cy s)) <> PrimFloat.neg_zero.
Proof.
  intros Hs E. cbn in E. apply add_neg_zero in E. tauto.
Qed.

Lemma Stable_NotNegativeZero : Stable NotNegativeZero.
Proof.
  constructor.
  - intros f w Hf. apply NotNegativeZero_in_scope. intros s Hs.
    destruct Hf as [e| |e|e|e|]; try exact Hs.
    + unfold onMouseMove. destruct (isDragging s); cbn [negb];
        [apply rotateBy_not_negative_zero, Hs | exact Hs].
    + unfold onTouchStart. destruct (Nat.eqb _ 1); [|exact Hs].
      destruct (touches e); exact Hs.
    + unfold onTouchMove. destruct (orb _ _); [exact Hs|].
      destruct (touches e); [exact Hs | apply rotateBy_not_negative_zero, Hs].
  - intros w. unfold NotNegativeZero, rotation, onResize. world_cases w; auto.
  - intros w. unfold NotNegativeZero, rotation, animate.
    destruct (scope w) as [s|] eqn:Hs; [|rewrite Hs; auto].
    destruct (rendererRef w); [|rewrite Hs; auto].
    cbn. intros Hy E. apply add_neg_zero in E. tauto.
  - intros w. unfold NotNegativeZero, rotation, setIsLoading, setState. world_cases w; auto.
  - intros cw ch w. unfold NotNegativeZero, rotation. world_cases w; auto.
  - intros t w. unfold NotNegativeZero, rotation. world_cases w; auto.
  - intros ts w. unfold NotNegativeZero, rotation. world_cases w; auto.
  - intros w. unfold NotNegativeZero, rotation. world_cases w; auto.
Qed.

Lemma NotNegativeZero_step w e : NotNegativeZero w -> NotNegativeZero (step w e).
Proof.
  intros Hw. destruct (isSliderChange e) eqn:Hs; [|destruct (isUnmount e) eqn:Hu].
  - destruct e; try discriminate. cbn [step].
    destruct (sliderDisplayed w); [|assumption].
    revert Hw. unfold NotNegativeZero, rotation, onSpeedChange, forceUpdate, setState.
    world_cases w; auto.
  - destruct e; try discriminate. cbn [step].
    revert Hw. unfold NotNegativeZero, rotation, unmount, cleanup, in_scope.
    world_cases w; auto.
  - apply (Stable_step _ Stable_NotNegativeZero); auto.
Qed.

Lemma NotNegativeZero_reachable host history :
  NotNegativeZero (run (mount host) history).
Proof.
  assert (H0 : NotNegativeZero (mount host)).
  { unfold NotNegativeZero, mount, mountEffect.
    destruct (isWebGLAvailable host) as [[|]|]; cbn; intros E;
      apply (f_equal Prim2SF) in E; vm_compute in E; discriminate. }
  revert H0. generalize (mount host) as w.
  induction history as [|e events IH]; intros w Hw; [assumption|].
  rewrite run_cons. apply IH, NotNegativeZero_step, Hw.
Qed.

(** A frame at speed zero. *)
Lemma frame_at_speed_zero w :
  (rotationSpeedRef w =? 0) = true ->
  NotNegativeZero w ->
  rotation (step w AnimationFrame) = rotation w.
Proof.
  intros Hv Hnz. cbn [step]. unfold animationFrame.
  apply (fold_left_invariant _ _
           (fun w' cb => runFrame cb w')
           (fun w' => rotationSpeedRef w' = rotationSpeedRef w
                      /\ rotation w' = rotation w)).
  - intros a [] (Hs & Hr). cbn [runFrame]. unfold animate.
    unfold NotNegativeZero in Hnz. rewrite <- Hr in *. unfold rotation in *.
    destruct (scope a) as [s|] eqn:Ea; [|rewrite Ea; auto].
    destruct (rendererRef a) as [r|]; [|rewrite Ea; auto].
    cbn. split; [exact Hs|]. rewrite Hs.
    destruct (add_zero (Three.y (cube_rotation s)) (rotationSpeedRef w) Hv) as [-> | [E _]];
      [destruct (cube_rotation s); reflexivity | contradiction].
  - unfold rotation. destruct w; cbn. auto.
Qed.

(** The gesture and resize handlers never read the speed. *)
Lemma fold_left_commutes (A B : Type) (f : A -> B -> A) (g : A -> A) :
  (forall a b, f (g a) b = g (f a b)) ->
  forall l a, fold_left f l (g a) = g (fold_left f l a).
Proof.
  intros Hfg l. induction l as [|b l IH]; intros a; cbn; [reflexivity|].
  rewrite Hfg. apply IH.
Qed.

Lemma dom_event_ignores_speed v w e :
  isDomEvent e = true ->
  step (set_rotationSpeedRef v w) e = set_rotationSpeedRef v (step w e).
Proof.
  intros He.
  destruct e as [ty ev|ty ev|ty| | | | | |]; try discriminate; cbn [step]; unfold dispatch;
    change (listeners (set_rotationSpeedRef v w)) with (listeners w);
    apply fold_left_commutes; intros a l; destruct (callback l); cbn;
      unfold in_scope, onResize; world_cases a; reflexivity.
Qed.

Lemma speed_onSpeedChange value w :
  rotationSpeedRef (onSpeedChange value w) = Number.parseFloat value.
Proof. unfold onSpeedChange, forceUpdate, setState. world_cases w; reflexivity. Qed.

Lemma inRange_step w e :
  sliderInRange e ->
  inRange (rotationSpeedRef w) = true -> inRange (rotationSpeedRef (step w e)) = true.
Proof.
  intros He Hw. destruct (isSliderChange e) eqn:Hs.
  - destruct e; try discriminate. cbn [step].
    destruct (sliderDisplayed w); [|assumption].
    rewrite speed_onSpeedChange. exact He.
  - rewrite speed_step; assumption.
Qed.

Lemma inRange_run events : forall w,
  Forall sliderInRange events ->
  inRange (rotationSpeedRef w) = true -> inRange (rotationSpeedRef (run w events)) = true.
Proof.
  induction events as [|e events IH]; intros w Hev Hw; [assumption|].
  inversion Hev; subst. rewrite run_cons. apply IH; [assumption|].
  apply inRange_step; assumption.
Qed.

Lemma speed_mount host : rotationSpeedRef (mount host) = 0.01.
Proof.
  unfold mount, mountEffect. destruct (isWebGLAvailable host) as [[|]|]; reflexivity.
Qed.

(** What the speed control can hold: the 101 positions from 0 to 0.1. *)
Lemma speed_control_values :
  Range.values "0" "0.1" "0.001" =
  [ "0"; "0.001"; "0.002"; "0.003"; "0.004"; "0.005"; "0.006"; "0.007"; "0.008"; "0.009";
    "0.01"; "0.011"; "0.012"; "0.013"; "0.014"; "0.015"; "0.016"; "0.017"; "0.018"; "0.019";
    "0.02"; "0.021"; "0.022"; "0.023"; "0.024"; "0.025"; "0.026"; "0.027"; "0.028"; "0.029";
    "0.03"; "0.031"; "0.032"; "0.033"; "0.034"; "0.035"; "0.036"; "0.037"; "0.038"; "0.039";
    "0.04"; "0.041"; "0.042"; "0.043"; "0.044"; "0.045"; "0.046"; "0.047"; "0.048"; "0.049";
    "0.05"; "0.051"; "0.052"; "0.053"; "0.054"; "0.055"; "0.056"; "0.057"; "0.058"; "0.059";
    "0.06"; "0.061"; "0.062"; "0.063"; "0.064"; "0.065"; "0.066"; "0.067"; "0.068"; "0.069";
    "0.07"; "0.071"; "0.072"; "0.073"; "0.074"; "0.075"; "0.076"; "0.077"; "0.078"; "0.079";
    "0.08"; "0.081"; "0.082"; "0.083"; "0.084"; "0.085"; "0.086"; "0.087"; "0.088"; "0.089";
    "0.09"; "0.091"; "0.092"; "0.093"; "0.094"; "0.095"; "0.096"; "0.097"; "0.098"; "0.099";
    "0.1" ].
Proof. vm_compute. reflexivity. Qed.

(** Each of them parses to a number within the bounds. *)
Lemma speed_control_inRange :
  forallb (fun s => inRange (Number.parseFloat s)) (Range.values "0" "0.1" "0.001") = true.
Proof. vm_compute. reflexivity. Qed.

Lemma changeDelivered_inRange w value :
  changeDelivered w value = true -> inRange (Number.parseFloat value) = true.
Proof.
  unfold changeDelivered.
  destruct (dom w) as [[message img|spinner v readout]|]; cbn [rangeInput]; try discriminate.
  unfold Range.holds. cbn [Range.min Range.max Range.step].
  intros H. apply existsb_exists in H. destruct H as (s & Hin & Heq).
  apply String.eqb_eq in Heq. subst s.
  pose proof speed_control_inRange as Hall. rewrite forallb_forall in Hall.
  apply Hall, Hin.
Qed.

Lemma inRange_fromControl events : forall w,
  fromControl w events = true ->
  inRange (rotationSpeedRef w) = true -> inRange (rotationSpeedRef (run w events)) = true.
Proof.
  induction events as [|e events IH]; intros w Hev Hw; [assumption|].
  cbn [fromControl] in Hev. apply andb_prop in Hev. destruct Hev as [He Hev].
  rewrite run_cons. apply IH; [assumption|].
  apply inRange_step; [|assumption].
  destruct e; cbn [sliderInRange]; auto.
  apply (changeDelivered_inRange w), He.
Qed.

(** C4. The component stores what the range input hands it, unclamped;
    the bounds are those of the input it renders, [min="0"] and
    [max="0.1"] with [step="0.001"], which the browser's control keeps.
    Whatever events happen, as long as every change event comes from the
    range input that is displayed when it happens, the stored speed is in
    [0, 0.1]: nothing else writes it.  When the speed equals 0 an
    animation frame leaves the cube's rotation, its Y component included,
    exactly as it was.  What a mouse, touch or resize event does to the
    rotation and to the drag state is the same at every speed. *)
Theorem C4_speed_bounded_zero_halts (host : Host.t) (history : list Event) :
  let w := run (mount host) history in
  (fromControl (mount host) history = true -> inRange (rotationSpeedRef w) = true)
  /\ ((rotationSpeedRef w =? 0) = true ->
      Three.y (rotation (step w AnimationFrame)) = Three.y (rotation w)
      /\ rotation (step w AnimationFrame) = rotation w)
  /\ (forall v e,
        isDomEvent e = true ->
        rotation (step (set_rotationSpeedRef v w) e) = rotation (step w e)
        /\ dragging (step (set_rotationSpeedRef v w) e) = dragging (step w e)).
Proof.
  intros w. split; [|split].
  - intros Hh. apply inRange_fromControl; [assumption|]. rewrite speed_mount. reflexivity.
  - intros Hv.
    rewrite (frame_at_speed_zero w Hv (NotNegativeZero_reachable host history)).
    split; reflexivity.
  - intros v e He. rewrite (dom_event_ignores_speed v w e He). split; reflexivity.
Qed.

(** The slider pushed to its upper end, a frame, then to its lower end. *)
Lemma C4_speed_bounded_zero_halts_witness :
  let history := [Elapse 500; RunTimers; SliderChange "0.1"; AnimationFrame;
                  SliderChange "0"] in
  let w := run (mount webglBrowser) history in
  fromControl (mount webglBrowser) history = true
  /\ inRange (rotationSpeedRef w) = true
  /\ ((rotationSpeedRef w =? 0) = true ->
      Three.y (rotation (step w AnimationFrame)) = Three.y (rotation w)
      /\ rotation (step w AnimationFrame) = rotation w)
  /\ (forall v e,
        isDomEvent e = true ->
        rotation (step (set_rotationSpeedRef v w) e) = rotation (step w e)
        /\ dragging (step (set_rotationSpeedRef v w) e) = dragging (step w e)).
Proof.
  intros history w.
  destruct (C4_speed_bounded_zero_halts webglBrowser history) as (Hrange & Hzero & Hdom).
  assert (Hh : fromControl (mount webglBrowser) history = true) by (vm_compute; reflexivity).
  exact (conj Hh (conj (Hrange Hh) (conj Hzero Hdom))).
Defined.

(** The control refuses what lies outside its attributes: a value above
    [max], below [min] or off the steps is none it can hold. *)
Example control_refuses_out_of_range :
  let w := run (mount webglBrowser) [Elapse 500; RunTimers] in
  changeDelivered w "0.1" = true
  /\ changeDelivered w "0.101" = false
  /\ changeDelivered w "5" = false
  /\ changeDelivered w "-0.001" = false
  /\ changeDelivered w "0.0005" = false.
Proof. vm_compute. repeat split. Qed.

(* ================================================================== *)
(** ** Further properties of the component *)

(** *** Invariants over every event *)

Lemma Stable_every_event (P : World -> Prop) :
  Stable P ->
  (forall value w, P w -> P (onSpeedChange value w)) ->
  (forall w, P w -> P (unmount w)) ->
  forall w e, P w -> P (step w e).
Proof.
  intros HP Hslider Hunmount w e Hw.
  destruct (isSliderChange e) eqn:Hs; [|destruct (isUnmount e) eqn:Hu].
  - destruct e; try discriminate. cbn [step].
    destruct (sliderDisplayed w); auto.
  - destruct e; try discriminate. cbn [step]. auto.
  - apply Stable_step; auto.
Qed.

Lemma run_invariant (P : World -> Prop) :
  (forall w e, P w -> P (step w e)) ->
  forall events w, P w -> P (run w events).
Proof.
  intros Hstep events. induction events as [|e events IH]; intros w Hw; [assumption|].
  rewrite run_cons. apply IH, Hstep, Hw.
Qed.

(** The gesture handlers touch the drag state and the rotation only. *)
Lemma GestureHandler_frame f s :
  GestureHandler f ->
  camera (f s) = camera s /\ scene (f s) = scene s
  /\ geometry_disposed (f s) = geometry_disposed s
  /\ material_disposed (f s) = material_disposed s.
Proof.
  intros [e| |e|e|e|]; cbn; auto.
  - unfold onMouseMove. destruct (negb (isDragging s)); cbn; auto.
  - unfold onTouchStart. destruct (Nat.eqb _ 1); [|auto]. destruct (touches e); cbn; auto.
  - unfold onTouchMove. destruct (orb _ _); [auto|]. destruct (touches e); cbn; auto.
Qed.

Ltac stable_by tac :=
  constructor; intros;
  unfold in_scope, onResize, animate, setIsLoading, setState in *;
  match goal with w : World |- _ => world_cases w end;
  tac.

(** *** The probe is asked once *)

Lemma Built_isSome w :
  Built w <-> isSome (scope w) = true /\ isSome (rendererRef w) = true.
Proof.
  unfold Built. split.
  - intros [[s ->] [r ->]]. auto.
  - intros [Hs Hr]. destruct (scope w), (rendererRef w); try discriminate. eauto.
Qed.

Lemma Built_step w e : Built w -> Built (step w e).
Proof.
  rewrite !Built_isSome. revert w e.
  apply (Stable_every_event
           (fun w => isSome (scope w) = true /\ isSome (rendererRef w) = true)).
  - stable_by ltac:(intuition (auto; discriminate)).
  - intros value w. unfold onSpeedChange, forceUpdate, setState. world_cases w; auto.
  - intros w. unfold unmount, cleanup, in_scope. world_cases w; auto.
Qed.

Lemma Built_mount host : isWebGLAvailable host = Js.Normal true -> Built (mount host).
Proof.
  intros Hp. unfold mount, mountEffect. rewrite Hp. split; cbn; eauto.
Qed.

Lemma supported_step w e : webglSupported w = true -> webglSupported (step w e) = true.
Proof.
  revert w e. apply (Stable_every_event (fun w => webglSupported w = true)).
  - stable.
  - intros value w. unfold onSpeedChange, forceUpdate, setState. world_cases w; auto.
  - intros w. unfold unmount, cleanup, in_scope. world_cases w; auto.
Qed.

(** X8. The capability is decided once, by the probe at mount: whatever
    happens afterwards, unmounting included, [webglSupported] is the
    probe's answer, and the scene and the renderer exist exactly when that
    answer was true.  Nothing probes again and nothing builds the scene
    later. *)
Theorem X8_capability_decided_at_mount (host : Host.t) (history : list Event) :
  let w := run (mount host) history in
  isWebGLAvailable host = Js.Normal (webglSupported w)
  /\ isSome (scope w) = webglSupported w
  /\ isSome (rendererRef w) = webglSupported w.
Proof.
  intros w. pose proof (probe_never_throws host) as Hnt.
  destruct (isWebGLAvailable host) as [[|]|] eqn:Hp; [| |contradiction].
  - assert (Hs : webglSupported w = true).
    { apply (run_invariant (fun w => webglSupported w = true)); [apply supported_step|].
      unfold mount, mountEffect. rewrite Hp. reflexivity. }
    assert (Hb : Built w).
    { apply (run_invariant Built); [apply Built_step | apply Built_mount, Hp]. }
    apply Built_isSome in Hb. destruct Hb as [Hb1 Hb2].
    rewrite Hs, Hb1, Hb2. auto.
  - destruct (Inert_run history _ (Inert_mount host Hp))
      as [Hr _ Hs _ _ _ Hsup _ _ _ _].
    fold w in Hr, Hs, Hsup. rewrite Hsup, Hr, Hs. auto.
Qed.

(** *** What is displayed *)

(** X9. What is displayed is never stale: after any events the rendered
    view is the component's render of the current state as long as the
    widget is mounted, and nothing once it is unmounted.  The speed lives
    in a ref, which React does not watch; every write to it is followed
    by [forceUpdate]. *)
Theorem X9_display_follows_state (host : Host.t) (history : list Event) :
  let w := run (mount host) history in
  dom w = if mounted w then Some (render w) else None.
Proof.
  intros w. apply (Synced_run history (mount host) (Synced_mount host)).
Qed.

(** *** The camera and the renderer *)

Ltac consistent_same :=
  let s := fresh "s" in
  let r := fresh "r" in
  let Hs := fresh "Hs" in
  let Hr := fresh "Hr" in
  let Hrest := fresh "Hrest" in
  unfold SceneConsistent;
  intros (s & r & Hs & Hr & Hrest);
  match goal with w : World |- _ => world_cases w end;
  try discriminate;
  injection Hs as ->; injection Hr as ->;
  do 2 eexists; (split; [reflexivity|]); (split; [reflexivity|]); exact Hrest.

Lemma SceneConsistent_gesture host f w :
  GestureHandler f -> SceneConsistent host w -> SceneConsistent host (in_scope f w).
Proof.
  intros Hf (s & r & Hs & Hr & Hrest).
  destruct (GestureHandler_frame f s Hf) as (Hc & Hsc & _).
  exists (f s), r. unfold in_scope. rewrite Hs. cbn. rewrite Hc, Hsc.
  split; [reflexivity|]. split; [exact Hr | exact Hrest].
Qed.

Lemma SceneConsistent_onResize host w :
  SceneConsistent host w -> SceneConsistent host (onResize w).
Proof.
  intros (s & r & Hs & Hr & Hfov & Hnear & Hfar & Hz & Hasp & Hproj & Hpr & Hsh & Hsc).
  unfold onResize. rewrite Hs, Hr.
  do 2 eexists. split; [reflexivity|]. split; [reflexivity|].
  cbn. rewrite Hfov, Hnear, Hfar. repeat split; assumption.
Qed.

Lemma Stable_SceneConsistent host : Stable (SceneConsistent host).
Proof.
  constructor.
  - intros f w. apply SceneConsistent_gesture.
  - intros w. apply SceneConsistent_onResize.
  - intros w. unfold animate. consistent_same.
  - intros w. unfold setIsLoading, setState. consistent_same.
  - intros cw ch w. consistent_same.
  - intros t w. consistent_same.
  - intros ts w. consistent_same.
  - intros w. consistent_same.
Qed.

Lemma SceneConsistent_step host w e :
  SceneConsistent host w -> SceneConsistent host (step w e).
Proof.
  revert w e. apply Stable_every_event.
  - apply Stable_SceneConsistent.
  - intros value w. unfold onSpeedChange, forceUpdate, setState. consistent_same.
  - intros w. unfold unmount, cleanup, in_scope. consistent_same.
Qed.

Lemma SceneConsistent_mount host :
  isWebGLAvailable host = Js.Normal true -> SceneConsistent host (mount host).
Proof.
  intros Hp. unfold mount, mountEffect. rewrite Hp.
  do 2 eexists. split; [reflexivity|]. split; [reflexivity|].
  cbn. repeat split.
Qed.

(** X7. Once built, the camera and the renderer never disagree: after any
    events the camera's aspect ratio is the renderer's width divided by
    its height, the projection is the one computed from that aspect (it
    is never stale), field of view, clipping planes and camera distance
    are those of the construction (75, 0.1, 1000, 5), and the renderer
    keeps the host's pixel ratio and its shadow map; the scene keeps its
    four objects. *)
Theorem X7_camera_matches_renderer (host : Host.t) (history : list Event) :
  isWebGLAvailable host = Js.Normal true ->
  let w := run (mount host) history in
  exists s r,
    scope w = Some s /\ rendererRef w = Some r
    /\ Three.fov (camera s) = 75
    /\ Three.near (camera s) = 0.1
    /\ Three.far (camera s) = 1000
    /\ Three.position_z (camera s) = 5
    /\ Three.aspect (camera s) = Three.width r / Three.height r
    /\ Three.projectionMatrix (camera s) =
       Three.mkProjection 75 (Three.width r / Three.height r) 0.1 1000
    /\ Three.pixelRatio r = Host.devicePixelRatio host
    /\ Three.shadowMapEnabled r = true
    /\ scene s = newScene.
Proof.
  intros Hp w.
  apply (run_invariant (SceneConsistent host) (SceneConsistent_step host)).
  apply SceneConsistent_mount, Hp.
Qed.

Lemma X7_camera_matches_renderer_witness :
  let w := run (mount webglBrowser)
               [Layout 1024 300; WindowEvent "resize"; Elapse 500; RunTimers;
                Layout 333 777; AnimationFrame; Unmount; AnimationFrame] in
  exists s r,
    scope w = Some s /\ rendererRef w = Some r
    /\ Three.fov (camera s) = 75
    /\ Three.near (camera s) = 0.1
    /\ Three.far (camera s) = 1000
    /\ Three.position_z (camera s) = 5
    /\ Three.aspect (camera s) = Three.width r / Three.height r
    /\ Three.projectionMatrix (camera s) =
       Three.mkProjection 75 (Three.width r / Three.height r) 0.1 1000
    /\ Three.pixelRatio r = Host.devicePixelRatio webglBrowser
    /\ Three.shadowMapEnabled r = true
    /\ scene s = newScene.
Proof.
  apply (X7_camera_matches_renderer webglBrowser). reflexivity.
Defined.

(** *** One timer, then one loop *)

Lemma Scheduled_frame w w' :
  timers w' = timers w -> frameRequests w' = frameRequests w ->
  framesDrawn w' = framesDrawn w ->
  Scheduled w -> Scheduled w'.
Proof.
  unfold Scheduled. intros -> -> ->. auto.
Qed.

Lemma Scheduled_mount host : isWebGLAvailable host = Js.Normal true -> Scheduled (mount host).
Proof.
  intros Hp. unfold mount, mountEffect. rewrite Hp. left. repeat split.
Qed.

Lemma Scheduled_step w e : Built w -> Scheduled w -> Scheduled (step w e).
Proof.
  intros [[s Hs] [r Hr]] Hw.
  destruct e as [ty ev|ty ev|ty|cw ch|ms| | |value|];
    try (apply step_dom_event_invariant; [| |reflexivity|assumption];
         [ intros f w0 _; apply Scheduled_frame;
           unfold in_scope, framesDrawn; world_cases w0; reflexivity
         | intros w0; apply Scheduled_frame;
           unfold onResize, framesDrawn; world_cases w0; reflexivity ]).
  - revert Hw. apply Scheduled_frame; reflexivity.
  - revert Hw. apply Scheduled_frame; reflexivity.
  - destruct w as [m ld sup u d v r' cw ch ca ls ts fs t s']; cbn in *; subst.
    destruct Hw as [(Ht & Hq & Hn) | (Ht & Hq)]; cbn in *; subst.
    + unfold runTimers; cbn. destruct (500 <=? t)%Z; cbn.
      * right. destruct m; split; reflexivity.
      * left. repeat split. exact Hn.
    + right. split; reflexivity.
  - destruct w as [m ld sup u d v r' cw ch ca ls ts fs t s']; cbn in *; subst.
    destruct Hw as [(Ht & Hq & Hn) | (Ht & Hq)]; cbn in *; subst.
    + left. repeat split. exact Hn.
    + right. split; reflexivity.
  - cbn [step]. destruct (sliderDisplayed w); [|assumption].
    revert Hw. apply Scheduled_frame;
      unfold onSpeedChange, forceUpdate, setState, framesDrawn; world_cases w; reflexivity.
  - cbn [step]. revert Hw. apply Scheduled_frame.
    + unfold unmount, cleanup, in_scope. world_cases w; reflexivity.
    + unfold unmount, cleanup, in_scope. world_cases w; reflexivity.
    + apply framesDrawn_unmount.
Qed.

Lemma Scheduled_reachable host history :
  isWebGLAvailable host = Js.Normal true ->
  Built (run (mount host) history) /\ Scheduled (run (mount host) history).
Proof.
  intros Hp.
  apply (run_invariant (fun w => Built w /\ Scheduled w)).
  - intros w e [Hb Hw]. split; [apply Built_step | apply Scheduled_step]; assumption.
  - split; [apply Built_mount | apply Scheduled_mount]; exact Hp.
Qed.

(** Once the timer has fired and [animate] is requested, every event
    leaves it so. *)
Lemma Looping_step w e :
  Built w ->
  timers w = [] /\ frameRequests w = [Animate] ->
  timers (step w e) = [] /\ frameRequests (step w e) = [Animate].
Proof.
  intros [[s Hs] [r Hr]] Hw.
  set (P := fun w' => timers w' = [] /\ frameRequests w' = [Animate]).
  change (P (step w e)). change (P w) in Hw.
  assert (Hframe : forall w0 w1,
             timers w1 = timers w0 -> frameRequests w1 = frameRequests w0 -> P w0 -> P w1).
  { unfold P. intros w0 w1 -> ->. auto. }
  destruct e as [ty ev|ty ev|ty|cw ch|ms| | |value|];
    try (apply step_dom_event_invariant; [| |reflexivity|assumption];
         [ intros f w0 _; apply Hframe;
           unfold in_scope; world_cases w0; reflexivity
         | intros w0; apply Hframe;
           unfold onResize; world_cases w0; reflexivity ]).
  - revert Hw. apply Hframe; reflexivity.
  - revert Hw. apply Hframe; reflexivity.
  - destruct Hw as [Ht Hq]. unfold P. cbn [step]. unfold runTimers. rewrite Ht. cbn.
    auto.
  - destruct w as [m ld sup u d v r' cw ch ca ls ts fs t s']; cbn in *; subst.
    destruct Hw as [Ht Hq]; cbn in *; subst. split; reflexivity.
  - cbn [step]. destruct (sliderDisplayed w); [|assumption].
    revert Hw. apply Hframe;
      unfold onSpeedChange, forceUpdate, setState; world_cases w; reflexivity.
  - cbn [step]. revert Hw. apply Hframe;
      unfold unmount, cleanup, in_scope; world_cases w; reflexivity.
Qed.

Lemma Looping_run events : forall w,
  Built w ->
  timers w = [] /\ frameRequests w = [Animate] ->
  timers (run w events) = [] /\ frameRequests (run w events) = [Animate].
Proof.
  induction events as [|e events IH]; intros w Hb Hw; [assumption|].
  rewrite run_cons. apply IH; [apply Built_step, Hb | apply Looping_step; assumption].
Qed.

(** The timer that is due starts the loop, on a mounted widget or not. *)
Lemma timer_starts_loop w :
  Built w -> Scheduled w -> (500 <= clock w)%Z ->
  timers (step w RunTimers) = [] /\ frameRequests (step w RunTimers) = [Animate].
Proof.
  intros [[s Hs] [r Hr]] Hw Hdue.
  destruct w as [m ld sup u d v r' cw ch ca ls ts fs t s']; cbn in *; subst.
  destruct Hw as [(Ht & Hq & Hn) | (Ht & Hq)]; cbn in *; subst.
  - unfold runTimers; cbn. apply Z.leb_le in Hdue. rewrite Hdue. cbn.
    destruct m; split; reflexivity.
  - split; reflexivity.
Qed.

(** X6. The loop never doubles and never dies.  For every host and after
    any events, the unmount included, at most one thing is pending, the
    start-up timer or one request of [animate]; an animation frame draws
    once for the request that is pending (not at all when there is none)
    and leaves the same requests behind.  When the probe succeeded there
    is always exactly one of the two: the timer of 500 ms with nothing
    drawn yet, or, the timer gone, one request of [animate].  The timer,
    once 500 ms have passed, starts the loop when the host runs it; and
    once [animate] is requested it stays requested whatever events
    follow, the unmount among them: nothing ever stops the loop. *)
Theorem X6_loop_never_doubles (host : Host.t) (history later : list Event) :
  let w := run (mount host) history in
  (List.length (timers w) + List.length (frameRequests w) <= 1)%nat
  /\ framesDrawn (step w AnimationFrame)
     = (framesDrawn w + List.length (frameRequests w))%nat
  /\ frameRequests (step w AnimationFrame) = frameRequests w
  /\ (isWebGLAvailable host = Js.Normal true ->
      ((timers w = [mkTimer 500 StartAnimation] /\ frameRequests w = []
        /\ framesDrawn w = 0%nat)
       \/ (timers w = [] /\ frameRequests w = [Animate]))
      /\ ((500 <= clock w)%Z ->
          timers (step w RunTimers) = []
          /\ frameRequests (step w RunTimers) = [Animate])
      /\ (frameRequests w = [Animate] ->
          frameRequests (run w later) = [Animate]
          /\ framesDrawn (step (run w later) AnimationFrame)
             = S (framesDrawn (run w later)))).
Proof.
  intros w. subst w.
  destruct (isWebGLAvailable host) as [[|]|] eqn:Hp.
  - destruct (Scheduled_reachable host history Hp) as [Hb Hw].
    assert (Hold :
              (List.length (timers (run (mount host) history))
               + List.length (frameRequests (run (mount host) history)) <= 1)%nat
              /\ framesDrawn (step (run (mount host) history) AnimationFrame)
                 = (framesDrawn (run (mount host) history)
                    + List.length (frameRequests (run (mount host) history)))%nat
              /\ frameRequests (step (run (mount host) history) AnimationFrame)
                 = frameRequests (run (mount host) history)).
    { destruct Hb as [[s Hs] [r Hr]].
      destruct (run (mount host) history)
        as [m ld sup u d v r' cw ch ca ls ts fs t s']; cbn in *; subst.
      destruct Hw as [(Ht & Hq & Hn) | (Ht & Hq)]; cbn in *; subst; cbn;
        repeat split; lia. }
    destruct Hold as (H1 & H2 & H3).
    refine (conj H1 (conj H2 (conj H3 _))).
    intros _. split; [exact Hw|]. split.
    + apply timer_starts_loop; assumption.
    + intros Hq.
      assert (Hloop : timers (run (mount host) history) = []
                      /\ frameRequests (run (mount host) history) = [Animate]).
      { destruct Hw as [(_ & Hq' & _) | Hw]; [congruence | exact Hw]. }
      destruct (Looping_run later _ Hb Hloop) as [Ht' Hq'].
      split; [exact Hq'|].
      rewrite <- run_app in *.
      destruct (Scheduled_reachable host (history ++ later) Hp) as [[[s Hs] [r Hr]] _].
      destruct (run (mount host) (history ++ later))
        as [m ld sup u d v r' cw ch ca ls ts fs t s']; cbn in *; subst.
      reflexivity.
  - destruct (Inert_run history _ (Inert_mount host Hp)) as [Hr _ Hs _ Ht Hf _ _ _ _ _].
    split; [|split; [|split]]; try discriminate.
    all: destruct (run (mount host) history)
      as [m ld sup u d v r' cw ch ca ls ts fs t s']; cbn in *; subst; cbn; try lia;
      reflexivity.
  - destruct (probe_never_throws host Hp).
Qed.

(** The loop of a widget that was unmounted as soon as its timer had
    fired: still requested after further frames, a resize and a second
    unmount, and still drawing. *)
Lemma X6_loop_never_doubles_witness :
  let w := run (mount webglBrowser) [Elapse 500; RunTimers; Unmount] in
  let later := [AnimationFrame; WindowEvent "resize"; AnimationFrame; Unmount] in
  frameRequests w = [Animate]
  /\ frameRequests (run w later) = [Animate]
  /\ framesDrawn (step (run w later) AnimationFrame) = S (framesDrawn (run w later)).
Proof.
  intros w later.
  destruct (X6_loop_never_doubles webglBrowser [Elapse 500; RunTimers; Unmount] later)
    as (_ & _ & _ & H).
  destruct (H eq_refl) as (_ & _ & Hstay).
  assert (Hq : frameRequests w = [Animate]) by reflexivity.
  exact (conj Hq (Hstay Hq)).
Defined.

(** *** The cleanup *)

Lemma Released_intro w r s :
  mounted w = false -> dom w = None -> listeners w = [] -> canvasAttached w = false ->
  rendererRef w = Some r -> Three.disposed r = true ->
  scope w = Some s -> geometry_disposed s = true -> material_disposed s = true ->
  Released w.
Proof.
  intros. unfold Released. eauto 12.
Qed.

Ltac released :=
  let r := fresh "r" in
  let s := fresh "s" in
  let Hm := fresh "Hm" in
  let Hd := fresh "Hd" in
  let Hl := fresh "Hl" in
  let Hc := fresh "Hc" in
  let Hr := fresh "Hr" in
  let Hrd := fresh "Hrd" in
  let Hs := fresh "Hs" in
  let Hg := fresh "Hg" in
  let Hmat := fresh "Hmat" in
  intros (Hm & Hd & Hl & Hc & (r & Hr & Hrd) & (s & Hs & Hg & Hmat));
  match goal with w : World |- _ => world_cases w end;
  try discriminate;
  injection Hr as ->; injection Hs as ->; subst;
  eapply Released_intro; cbn; try reflexivity; assumption.

Lemma Released_gesture f w :
  GestureHandler f -> Released w -> Released (in_scope f w).
Proof.
  intros Hf (Hm & Hd & Hl & Hc & (r & Hr & Hrd) & (s & Hs & Hg & Hmat)).
  destruct (GestureHandler_frame f s Hf) as (_ & _ & Hg' & Hmat').
  unfold in_scope. rewrite Hs.
  apply (Released_intro _ r (f s)); cbn; congruence.
Qed.

Lemma Stable_Released : Stable Released.
Proof.
  constructor.
  - intros f w. apply Released_gesture.
  - intros w. unfold onResize. released.
  - intros w. unfold animate. released.
  - intros w. unfold setIsLoading, setState. released.
  - intros cw ch w. released.
  - intros t w. released.
  - intros ts w. released.
  - intros w. released.
Qed.

Lemma Released_step w e : Released w -> Released (step w e).
Proof.
  revert w e. apply Stable_every_event.
  - apply Stable_Released.
  - intros value w. unfold onSpeedChange, forceUpdate, setState. released.
  - intros w Hw. unfold unmount. rewrite (proj1 Hw). exact Hw.
Qed.

Lemma Released_unmount w : Live w -> Released (unmount w).
Proof.
  intros (Hm & Hl & [s Hs] & [r Hr]).
  destruct w as [m ld sup u d v r' cw ch ca ls ts fs t s']; cbn in *; subst.
  eapply Released_intro; reflexivity.
Qed.

Lemma Live_or_Released_step w e :
  Live w \/ Released w -> Live (step w e) \/ Released (step w e).
Proof.
  intros [Hw|Hw].
  - destruct (isUnmount e) eqn:He.
    + right. destruct e; try discriminate. apply Released_unmount, Hw.
    + left. apply Live_step; assumption.
  - right. apply Released_step, Hw.
Qed.

Lemma Released_after_unmount host before after :
  isWebGLAvailable host = Js.Normal true ->
  Released (run (mount host) (before ++ Unmount :: after)).
Proof.
  intros Hp. rewrite run_app, run_cons.
  apply (run_invariant Released Released_step).
  assert (Hw : Live (run (mount host) before) \/ Released (run (mount host) before)).
  { apply (run_invariant (fun w => Live w \/ Released w) Live_or_Released_step).
    left. apply Live_mount, Hp. }
  destruct (Live_or_Released_step _ Unmount Hw) as [(Hm & _)|Hr]; [|exact Hr].
  revert Hm. cbn [step]. unfold unmount.
  destruct (mounted (run (mount host) before)) eqn:Hm'; cbn; [discriminate|].
  destruct Hw as [(Hm & _)|(Hm & _)]; congruence.
Qed.

(** X10. Unmounting releases what the effect acquired, for good.  Once a
    widget whose probe succeeded has been unmounted, then whatever
    happened before and whatever happens afterwards (late timers and
    animation frames included), it is off the page, none of the nine
    listeners is registered, the canvas is detached, and the renderer,
    the cube's geometry and its material are disposed. *)
Theorem X10_unmount_releases_everything (host : Host.t) (before after : list Event) :
  isWebGLAvailable host = Js.Normal true ->
  let w := run (mount host) (before ++ Unmount :: after) in
  mounted w = false
  /\ dom w = None
  /\ listeners w = []
  /\ canvasAttached w = false
  /\ (exists r, rendererRef w = Some r /\ Three.disposed r = true)
  /\ (exists s, scope w = Some s
                /\ geometry_disposed s = true /\ material_disposed s = true).
Proof.
  intros Hp w. apply Released_after_unmount, Hp.
Qed.

Lemma X10_unmount_releases_everything_witness :
  let w := run (mount webglBrowser)
               ([Elapse 500; RunTimers; press ByMouse (mkPosition 1 2)]
                ++ Unmount :: [AnimationFrame; WindowEvent "resize"; Unmount]) in
  mounted w = false
  /\ dom w = None
  /\ listeners w = []
  /\ canvasAttached w = false
  /\ (exists r, rendererRef w = Some r /\ Three.disposed r = true)
  /\ (exists s, scope w = Some s
                /\ geometry_disposed s = true /\ material_disposed s = true).
Proof.
  apply (X10_unmount_releases_everything webglBrowser). reflexivity.
Defined.

Lemma Stable_Unmounted : Stable Unmounted.
Proof.
  unfold Unmounted. stable_by ltac:(intuition (auto; discriminate)).
Qed.

Lemma Unmounted_step w e : Unmounted w -> Unmounted (step w e).
Proof.
  revert w e. apply Stable_every_event.
  - apply Stable_Unmounted.
  - intros value w. unfold Unmounted, onSpeedChange, forceUpdate, setState.
    world_cases w; intuition (auto; discriminate).
  - intros w. unfold Unmounted, unmount. world_cases w; intuition (auto; discriminate).
Qed.

Lemma Unmounted_after_unmount host before after :
  Unmounted (run (mount host) (before ++ Unmount :: after)).
Proof.
  destruct (isWebGLAvailable host) as [[|]|] eqn:Hp.
  - destruct (Released_after_unmount host before after Hp) as (Hm & Hd & Hl & _).
    repeat split; assumption.
  - rewrite run_app, run_cons.
    apply (run_invariant Unmounted Unmounted_step).
    destruct (Inert_run before _ (Inert_mount host Hp)) as [_ _ Hs Hl _ _ _ _ _ _ Hd].
    cbn [step]. unfold unmount.
    destruct (run (mount host) before)
      as [m ld sup u d v r' cw ch ca ls ts fs t s']; cbn in *; subst.
    destruct m; repeat split.
  - destruct (probe_never_throws host Hp).
Qed.

(** X11. An unmounted widget takes no input.  Whatever the host and
    whatever happened before and after the unmount, a mouse, touch or
    window event, a slider change or a further unmount leaves the whole
    state exactly as it is; only the passing of time, the timers and the
    animation frames still act on it. *)
Theorem X11_unmounted_widget_ignores_input
    (host : Host.t) (before after : list Event) (e : Event) :
  actsAfterUnmount e = false ->
  let w := run (mount host) (before ++ Unmount :: after) in
  step w e = w.
Proof.
  intros He w.
  destruct (Unmounted_after_unmount host before after) as (Hm & Hd & Hl).
  fold w in Hm, Hd, Hl.
  destruct e as [ty ev|ty ev|ty|cw ch|ms| | |value|]; try discriminate; cbn [step].
  - unfold dispatch. rewrite Hl. reflexivity.
  - unfold dispatch. rewrite Hl. reflexivity.
  - unfold dispatch. rewrite Hl. reflexivity.
  - unfold sliderDisplayed. rewrite Hd. reflexivity.
  - unfold unmount. rewrite Hm. reflexivity.
Qed.

Lemma X11_unmounted_widget_ignores_input_witness :
  let w := run (mount webglBrowser)
               ([press ByMouse (mkPosition 1 2)] ++ Unmount :: [Elapse 500; RunTimers]) in
  step w (move ByMouse (mkPosition 40 50)) = w.
Proof.
  apply (X11_unmounted_widget_ignores_input webglBrowser
           [press ByMouse (mkPosition 1 2)] [Elapse 500; RunTimers]).
  reflexivity.
Defined.

(** *** The drag state *)

Lemma in_scope_id f w :
  (forall s, scope w = Some s -> f s = s) -> in_scope f w = w.
Proof.
  intros Hf. unfold in_scope. destruct (scope w) as [s|] eqn:Hs; [|reflexivity].
  rewrite (Hf s eq_refl). destruct w; cbn in *. subst. reflexivity.
Qed.

Lemma idle_step_move d p w : Live w -> dragging w = false -> step w (move d p) = w.
Proof.
  intros Hw Hd. rewrite (step_move d p w Hw). apply in_scope_id.
  intros s Hs. unfold dragging in Hd. rewrite Hs in Hd. rewrite Hd. reflexivity.
Qed.

Lemma idle_step_release d how p w :
  Live w -> dragging w = false -> step w (release d how p) = w.
Proof.
  intros Hw Hd. rewrite (step_release d how p w Hw). apply in_scope_id.
  intros s Hs. unfold dragging in Hd. rewrite Hs in Hd.
  destruct s; cbn in *. subst. reflexivity.
Qed.

(** X2. An idle widget ignores the pointer until it is pressed.  On a
    mounted widget whose scene exists and on which no drag is on, a
    mouse move, a one-finger touch move, a mouse up or leave and a touch
    end or cancel each leave the whole state exactly as it is: nothing is
    rotated, no position is remembered. *)
Theorem X2_idle_pointer_ignored
    (host : Host.t) (history : list Event) (d : Device) (how : Ending) (p : Position) :
  isWebGLAvailable host = Js.Normal true ->
  staysMounted history ->
  let w := run (mount host) history in
  dragging w = false ->
  step w (move d p) = w /\ step w (release d how p) = w.
Proof.
  intros Hp Hh w Hd.
  pose proof (Live_reachable host history Hp Hh) as Hw. fold w in Hw.
  split; [apply idle_step_move | apply idle_step_release]; assumption.
Qed.

Lemma X2_idle_pointer_ignored_witness :
  let w := run (mount webglBrowser)
               (dragSequence ByMouse (mkPosition 1 2) [mkPosition 30 40] Lifted
                             (mkPosition 30 40)) in
  step w (move ByTouch (mkPosition 70 80)) = w
  /\ step w (release ByTouch BrokenOff (mkPosition 70 80)) = w.
Proof.
  apply (X2_idle_pointer_ignored webglBrowser
           (dragSequence ByMouse (mkPosition 1 2) [mkPosition 30 40] Lifted
                         (mkPosition 30 40))).
  - reflexivity.
  - repeat constructor.
  - reflexivity.
Defined.

(** What is not a pointer event leaves the X rotation and the drag state
    alone, in any state. *)
Lemma quiet_operation (f : World -> World) w :
  (forall w0, Three.x (rotation (f w0)) = Three.x (rotation w0)
              /\ dragging (f w0) = dragging w0 /\ anchor (f w0) = anchor w0) ->
  forall a b c,
  Three.x (rotation w) = a /\ dragging w = b /\ anchor w = c ->
  Three.x (rotation (f w)) = a /\ dragging (f w) = b /\ anchor (f w) = c.
Proof.
  intros Hf a b c (Ha & Hb & Hc). destruct (Hf w) as (Ha' & Hb' & Hc').
  repeat split; congruence.
Qed.

Ltac quiet_by :=
  intros; unfold rotation, dragging, anchor,
    onResize, animate, startAnimation, setIsLoading, onSpeedChange, forceUpdate, setState,
    unmount, cleanup, in_scope;
  match goal with w : World |- _ => world_cases w end;
  repeat split.

Lemma quiet_onResize w0 :
  Three.x (rotation (onResize w0)) = Three.x (rotation w0)
  /\ dragging (onResize w0) = dragging w0 /\ anchor (onResize w0) = anchor w0.
Proof. quiet_by. Qed.

Lemma quiet_animate w0 :
  Three.x (rotation (animate w0)) = Three.x (rotation w0)
  /\ dragging (animate w0) = dragging w0 /\ anchor (animate w0) = anchor w0.
Proof. quiet_by. Qed.

Lemma quiet_startAnimation w0 :
  Three.x (rotation (startAnimation w0)) = Three.x (rotation w0)
  /\ dragging (startAnimation w0) = dragging w0
  /\ anchor (startAnimation w0) = anchor w0.
Proof. quiet_by. Qed.

Lemma quiet_onSpeedChange value w0 :
  Three.x (rotation (onSpeedChange value w0)) = Three.x (rotation w0)
  /\ dragging (onSpeedChange value w0) = dragging w0
  /\ anchor (onSpeedChange value w0) = anchor w0.
Proof. quiet_by. Qed.

Lemma quiet_unmount w0 :
  Three.x (rotation (unmount w0)) = Three.x (rotation w0)
  /\ dragging (unmount w0) = dragging w0 /\ anchor (unmount w0) = anchor w0.
Proof. quiet_by. Qed.

Lemma quiet_step w e :
  isPointerEvent e = false ->
  Three.x (rotation (step w e)) = Three.x (rotation w)
  /\ dragging (step w e) = dragging w
  /\ anchor (step w e) = anchor w.
Proof.
  intros He.
  set (P := fun w' => Three.x (rotation w') = Three.x (rotation w)
                      /\ dragging w' = dragging w /\ anchor w' = anchor w).
  assert (H0 : P w) by (unfold P; auto).
  change (P (step w e)).
  destruct e as [ty ev|ty ev|ty|cw ch|ms| | |value|]; try discriminate; cbn [step].
  - apply dispatch_invariant; [|exact H0].
    intros h w'. destruct h; cbn; auto. apply quiet_operation, quiet_onResize.
  - exact H0.
  - exact H0.
  - unfold runTimers. apply fold_left_invariant; [|exact H0].
    intros w' [t []]. cbn. apply quiet_operation, quiet_startAnimation.
  - unfold animationFrame. apply fold_left_invariant; [|exact H0].
    intros w' []. cbn. apply quiet_operation, quiet_animate.
  - destruct (sliderDisplayed w); [|exact H0].
    revert H0. apply quiet_operation, quiet_onSpeedChange.
  - revert H0. apply quiet_operation, quiet_unmount.
Qed.

(** X5. Only the pointer turns the cube about its X axis and only the
    pointer starts, moves or ends a drag.  In any state, an event that is
    neither a mouse nor a touch event (a resize, a new layout, the clock,
    the timer, an animation frame, a slider change, the unmount) leaves
    rotation.x, the dragging flag and the remembered pointer position as
    they are. *)
Theorem X5_only_pointer_touches_drag_state (w : World) (e : Event) :
  isPointerEvent e = false ->
  Three.x (rotation (step w e)) = Three.x (rotation w)
  /\ dragging (step w e) = dragging w
  /\ anchor (step w e) = anchor w.
Proof.
  apply quiet_step.
Qed.

Lemma X5_only_pointer_touches_drag_state_witness :
  let w := run (mount webglBrowser)
               [Elapse 500; RunTimers; press ByMouse (mkPosition 5 6);
                move ByMouse (mkPosition 9 36)] in
  Three.x (rotation (step w AnimationFrame)) = Three.x (rotation w)
  /\ dragging (step w AnimationFrame) = dragging w
  /\ anchor (step w AnimationFrame) = anchor w.
Proof.
  apply X5_only_pointer_touches_drag_state. reflexivity.
Defined.

Lemma last_cons (A : Type) (p : A) (l : list A) (a : A) : last (p :: l) a = last l p.
Proof.
  revert p a. induction l as [|q l IH]; intros p a; [reflexivity|].
  change (last (q :: l) a = last (q :: l) p). rewrite !IH. reflexivity.
Qed.

Lemma pressed d p w :
  Live w ->
  Live (step w (press d p))
  /\ dragging (step w (press d p)) = true
  /\ anchor (step w (press d p)) = p
  /\ rotation (step w (press d p)) = rotation w.
Proof.
  intros Hw. rewrite (step_press d p w Hw).
  split; [apply Live_in_scope, Hw|].
  destruct Hw as (_ & _ & [s Hs] & _).
  unfold dragging, anchor, rotation, in_scope. rewrite Hs. cbn. auto.
Qed.

Lemma moved d p w :
  Live w -> dragging w = true ->
  Live (step w (move d p))
  /\ dragging (step w (move d p)) = true
  /\ anchor (step w (move d p)) = p
  /\ Three.x (rotation (step w (move d p))) =
     Three.x (rotation w) + (y p - y (anchor w)) * 0.01
  /\ Three.y (rotation (step w (move d p))) =
     Three.y (rotation w) + (x p - x (anchor w)) * 0.01.
Proof.
  intros Hw Hd. rewrite (step_move d p w Hw).
  split; [apply Live_in_scope, Hw|].
  destruct Hw as (_ & _ & [s Hs] & _).
  revert Hd. unfold dragging, anchor, rotation, in_scope. rewrite Hs. cbn.
  intros Hd. rewrite Hd. destruct p as [px py]. cbn. repeat split. exact Hd.
Qed.

Lemma let_go d how p w :
  Live w ->
  Live (step w (release d how p))
  /\ dragging (step w (release d how p)) = false
  /\ anchor (step w (release d how p)) = anchor w
  /\ rotation (step w (release d how p)) = rotation w.
Proof.
  intros Hw. rewrite (step_release d how p w Hw).
  split; [apply Live_in_scope, Hw|].
  destruct Hw as (_ & _ & [s Hs] & _).
  unfold dragging, anchor, rotation, in_scope. rewrite Hs. cbn. auto.
Qed.

(** The steps of a drag, from a state where the drag is on. *)
Lemma run_steps steps : forall w,
  forallb quietStep steps = true -> Live w -> dragging w = true ->
  Live (run w (map eventOf steps))
  /\ dragging (run w (map eventOf steps)) = true
  /\ anchor (run w (map eventOf steps)) = last (positions steps) (anchor w)
  /\ Three.x (rotation (run w (map eventOf steps))) =
     addAll (Three.x (rotation w)) (increments y (anchor w) (positions steps)).
Proof.
  induction steps as [|[d p|e] steps IH]; intros w Hq Hw Hd.
  - cbn. auto.
  - cbn [map eventOf positions increments forallb quietStep] in *.
    rewrite run_cons, last_cons.
    destruct (moved d p w Hw Hd) as (Hw1 & Hd1 & Ha1 & Hx1 & _).
    destruct (IH _ Hq Hw1 Hd1) as (Hw' & Hd' & Ha' & Hx').
    rewrite Ha1 in Ha', Hx'. rewrite Hx1 in Hx'.
    exact (conj Hw' (conj Hd' (conj Ha' Hx'))).
  - cbn [map eventOf positions forallb quietStep] in *.
    apply andb_prop in Hq. destruct Hq as [He Hq].
    apply andb_prop in He. destruct He as [Hptr Hun].
    apply negb_true_iff in Hptr, Hun.
    rewrite run_cons.
    destruct (quiet_step w e Hptr) as (Hx1 & Hd1 & Ha1).
    destruct (IH (step w e) Hq) as (Hw' & Hd' & Ha' & Hx').
    + apply Live_step; assumption.
    + congruence.
    + rewrite Ha1 in Ha', Hx'. rewrite Hx1 in Hx'.
      exact (conj Hw' (conj Hd' (conj Ha' Hx'))).
Qed.

(** X3. Mouse and touch share one drag state, and nothing but the pointer
    disturbs a drag.  A drag may be pressed with one device, moved with
    either and released with either, while the host interleaves any
    other work (animation frames, the timer, resizes, layouts, slider
    changes).  Over the whole of it the X rotation gains exactly the
    terms [(current Y - previous Y) * 0.01] of the pointer moves, added
    in order, the first previous position being the press position; the
    drag ends idle, and the remembered position is that of the last move
    (of the press, when the pointer never moved). *)
Theorem X3_drag_shared_and_undisturbed
    (host : Host.t) (history : list Event)
    (d : Device) (start : Position) (steps : list DragStep)
    (d' : Device) (how : Ending) (last_position : Position) :
  isWebGLAvailable host = Js.Normal true ->
  staysMounted history ->
  forallb quietStep steps = true ->
  let w := run (mount host) history in
  let w' := run w (interleavedDrag d start steps d' how last_position) in
  Three.x (rotation w') =
    addAll (Three.x (rotation w)) (increments y start (positions steps))
  /\ dragging w' = false
  /\ anchor w' = last (positions steps) start.
Proof.
  intros Hp Hh Hq w w'.
  pose proof (Live_reachable host history Hp Hh) as Hw. fold w in Hw.
  subst w'. unfold interleavedDrag. rewrite run_cons, run_app.
  destruct (pressed d start w Hw) as (Hw1 & Hd1 & Ha1 & Hr1).
  destruct (run_steps steps _ Hq Hw1 Hd1) as (Hw2 & Hd2 & Ha2 & Hx2).
  rewrite Ha1 in Ha2, Hx2. rewrite Hr1 in Hx2.
  cbn [run fold_left].
  destruct (let_go d' how last_position _ Hw2) as (_ & Hd3 & Ha3 & Hr3).
  unfold run in *. rewrite Hr3, Ha3. auto.
Qed.

Lemma X3_drag_shared_and_undisturbed_witness :
  let steps := [Moved ByTouch (mkPosition 20 30); Meanwhile AnimationFrame;
                Meanwhile (SliderChange "0.05"); Moved ByMouse (mkPosition 21 80);
                Meanwhile (WindowEvent "resize")] in
  let w := run (mount webglBrowser) [Elapse 500; RunTimers] in
  let w' := run w (interleavedDrag ByMouse (mkPosition 10 10) steps ByTouch BrokenOff
                                   (mkPosition 0 0)) in
  Three.x (rotation w') =
    addAll (Three.x (rotation w)) (increments y (mkPosition 10 10) (positions steps))
  /\ dragging w' = false
  /\ anchor w' = last (positions steps) (mkPosition 10 10).
Proof.
  apply (X3_drag_shared_and_undisturbed webglBrowser [Elapse 500; RunTimers]).
  - reflexivity.
  - repeat constructor.
  - reflexivity.
Defined.








(** *** The probe answers true whenever a context is there *)

(** X1. The probe misses no capability.  When the canvas can be created,
    the class marker [window.WebGLRenderingContext] is truthy and
    [getContext] hands out a truthy context, under the name webgl or,
    that one giving a falsy value, under the name experimental-webgl,
    then the probe answers [true].  The second name is consulted only
    when the first gave a falsy value: a context under the first name is
    enough whatever the second would do. *)
Theorem X1_probe_complete (host : Host.t) (canvas : Host.Canvas) (marker : Js.value) :
  Host.createElement host "canvas" = Js.Normal canvas ->
  Host.WebGLRenderingContext host = Js.Normal marker ->
  Js.truthy marker = true ->
  contextObtained canvas ->
  isWebGLAvailable host = Js.Normal true.
Proof.
  intros Hc Hm Ht Hctx. unfold isWebGLAvailable.
  rewrite Hc; cbn. rewrite Hm; cbn. unfold Js.and_then. rewrite Ht.
  destruct Hctx as [(ctx & H1 & Hctx) | (none & ctx & H1 & Hnone & H2 & Hctx)].
  - rewrite H1; cbn. unfold Js.or_else. rewrite Hctx; cbn. rewrite Hctx. reflexivity.
  - rewrite H1; cbn. unfold Js.or_else. rewrite Hnone, H2; cbn. rewrite Hctx. reflexivity.
Qed.

Lemma X1_probe_complete_witness :
  let canvas :=
    Host.mkCanvas
      (fun name =>
         if String.eqb name "webgl" then Js.Normal Js.Undefined
         else Js.Normal (Js.Object "WebGLRenderingContext")) in
  let host := Host.mkHost (fun _ => Js.Normal canvas) (Js.Normal (Js.Object "Function"))
                          1 600 400 in
  isWebGLAvailable host = Js.Normal true.
Proof.
  intros canvas host.
  apply (X1_probe_complete host canvas (Js.Object "Function")).
  - reflexivity.
  - reflexivity.
  - reflexivity.
  - right. exists Js.Undefined, (Js.Object "WebGLRenderingContext").
    repeat split.
Defined.

(** *** The slider *)

Lemma supported_reachable host history :
  isWebGLAvailable host = Js.Normal true ->
  webglSupported (run (mount host) history) = true.
Proof.
  intros Hp.
  apply (run_invariant (fun w => webglSupported w = true)); [apply supported_step|].
  unfold mount, mountEffect. rewrite Hp. reflexivity.
Qed.

(** What a slider change does to a mounted widget that shows the main
    view. *)
Lemma slider_change value w :
  Live w -> Synced w -> webglSupported w = true ->
  let v := Number.parseFloat value in
  let w' := step w (SliderChange value) in
  rotationSpeedRef w' = v
  /\ dom w' = Some (MainView (isLoading w) v (Number.toFixed v 3))
  /\ updates w' = updates w + 1
  /\ scope w' = scope w
  /\ rendererRef w' = rendererRef w
  /\ timers w' = timers w
  /\ frameRequests w' = frameRequests w
  /\ mounted w' = true.
Proof.
  intros (Hm & _) Hd Hsup. unfold Synced in Hd. rewrite Hm in Hd.
  cbn zeta. cbn [step]. unfold sliderDisplayed. rewrite Hd. unfold render at 1.
  rewrite Hsup. cbn [negb]. unfold onSpeedChange.
  generalize (Number.parseFloat value) as v. intros v.
  destruct w as [m ld sup u d v0 r' cw ch ca ls ts fs t s']; cbn in *; subst.
  repeat split.
Qed.

(** X12. A slider change takes effect at once and touches nothing else.
    On a mounted widget whose probe succeeded, moving the slider to
    [value] stores [parseFloat(value)] as the speed, re-renders the
    component exactly once (the slider and the readout show the new
    speed, the readout with three decimals), and leaves the scene, the
    renderer, the timer and the frame requests as they are: nothing is
    rebuilt or drawn.  When the loop runs, the very next frame turns the
    cube by the new speed. *)
Theorem X12_slider_change_takes_effect
    (host : Host.t) (history : list Event) (value : string) :
  isWebGLAvailable host = Js.Normal true ->
  staysMounted history ->
  let w := run (mount host) history in
  let v := Number.parseFloat value in
  let w' := step w (SliderChange value) in
  rotationSpeedRef w' = v
  /\ dom w' = Some (MainView (isLoading w) v (Number.toFixed v 3))
  /\ updates w' = updates w + 1
  /\ scope w' = scope w
  /\ rendererRef w' = rendererRef w
  /\ timers w' = timers w
  /\ frameRequests w' = frameRequests w
  /\ (isLoading w = false ->
      Three.y (rotation (step w' AnimationFrame)) = Three.y (rotation w) + v
      /\ framesDrawn (step w' AnimationFrame) = S (framesDrawn w)).
Proof.
  intros Hp Hh w v w'.
  pose proof (Live_reachable host history Hp Hh) as Hw. fold w in Hw.
  pose proof (Synced_run history (mount host) (Synced_mount host)) as Hd. fold w in Hd.
  pose proof (supported_reachable host history Hp) as Hsup. fold w in Hsup.
  destruct (slider_change value w Hw Hd Hsup)
    as (Hv & Hdom & Hu & Hs & Hr & Ht & Hf & Hm).
  fold v w' in Hv, Hdom, Hu, Hs, Hr, Ht, Hf, Hm.
  repeat (split; [assumption|]).
  intros Hld.
  destruct (LoopOn_reachable host history Hp Hh Hld) as ([s Hs0] & [r Hr0] & Hq).
  fold w in Hs0, Hr0, Hq.
  rewrite Hs0 in Hs. rewrite Hr0 in Hr. rewrite Hq in Hf.
  unfold rotation, framesDrawn. rewrite Hs0, Hr0.
  clearbody w'. clear - Hv Hs Hr Hf.
  destruct w' as [m ld sup u d v0 r' cw ch ca ls ts fs t s']; cbn in *; subst.
  split; reflexivity.
Qed.

Lemma X12_slider_change_takes_effect_witness :
  let w := run (mount webglBrowser) [Elapse 500; RunTimers; AnimationFrame] in
  let v := Number.parseFloat "0.025" in
  let w' := step w (SliderChange "0.025") in
  rotationSpeedRef w' = v
  /\ dom w' = Some (MainView (isLoading w) v (Number.toFixed v 3))
  /\ updates w' = updates w + 1
  /\ scope w' = scope w
  /\ rendererRef w' = rendererRef w
  /\ timers w' = timers w
  /\ frameRequests w' = frameRequests w
  /\ (isLoading w = false ->
      Three.y (rotation (step w' AnimationFrame)) = Three.y (rotation w) + v
      /\ framesDrawn (step w' AnimationFrame) = S (framesDrawn w)).
Proof.
  apply (X12_slider_change_takes_effect webglBrowser [Elapse 500; RunTimers; AnimationFrame]).
  - reflexivity.
  - repeat constructor.
Defined.

Lemma every_step_shown : forallb stepShown (seq 0 101) = true.
Proof. vm_compute. reflexivity. Qed.

Lemma stepShown_inv k :
  stepShown k = true ->
  inRange (Number.parseFloat (sliderValue k)) = true
  /\ Number.parseFloat (sliderValue k) = Number.parseFloat (threeDecimals k)
  /\ Number.toFixed (Number.parseFloat (sliderValue k)) 3 = Some (threeDecimals k).
Proof.
  unfold stepShown. cbn zeta.
  generalize (Number.parseFloat (sliderValue k)) as v.
  generalize (Number.parseFloat (threeDecimals k)) as v3.
  generalize (threeDecimals k) as shown.
  intros shown v3 v H.
  apply andb_prop in H. destruct H as [Hin H].
  apply andb_prop in H. destruct H as [Heq Hfix].
  apply Leibniz.eqb_spec in Heq.
  destruct (Number.toFixed v 3) as [readout|]; [|discriminate].
  apply String.eqb_eq in Hfix. subst. auto.
Qed.

(** X13. Every position of the slider is displayed as it is.  The range
    input has the positions [k / 1000] for [k] from 0 to 100 (min 0, max
    0.1, step 0.001).  For each of them, whether the browser spells the
    value with three decimals or as the shortest decimal, the speed stored
    is one and the same binary64 number, it lies within the bounds, and
    the readout that the component renders from it is [k / 1000] with
    exactly three decimals: parsing and [toFixed(3)] lose nothing. *)
Theorem X13_slider_positions_displayed
    (host : Host.t) (history : list Event) (k : nat) :
  isWebGLAvailable host = Js.Normal true ->
  staysMounted history ->
  (k <= 100)%nat ->
  let w := run (mount host) history in
  let v := Number.parseFloat (threeDecimals k) in
  inRange v = true
  /\ rotationSpeedRef (step w (SliderChange (sliderValue k))) = v
  /\ rotationSpeedRef (step w (SliderChange (threeDecimals k))) = v
  /\ dom (step w (SliderChange (sliderValue k))) =
     Some (MainView (isLoading w) v (Some (threeDecimals k)))
  /\ dom (step w (SliderChange (threeDecimals k))) =
     Some (MainView (isLoading w) v (Some (threeDecimals k))).
Proof.
  intros Hp Hh Hk w v.
  pose proof (Live_reachable host history Hp Hh) as Hw. fold w in Hw.
  pose proof (Synced_run history (mount host) (Synced_mount host)) as Hd. fold w in Hd.
  pose proof (supported_reachable host history Hp) as Hsup. fold w in Hsup.
  assert (Hshown : stepShown k = true).
  { pose proof every_step_shown as Hall. rewrite forallb_forall in Hall.
    apply Hall, in_seq. lia. }
  destruct (stepShown_inv k Hshown) as (Hin & Heq & Hfix).
  rewrite Heq in Hin, Hfix. fold v in Hin, Hfix.
  destruct (slider_change (sliderValue k) w Hw Hd Hsup) as (Hv1 & Hdom1 & _).
  destruct (slider_change (threeDecimals k) w Hw Hd Hsup) as (Hv2 & Hdom2 & _).
  cbn zeta in Hv1, Hdom1, Hv2, Hdom2.
  rewrite Heq in Hv1, Hdom1. fold v in Hv1, Hdom1, Hv2, Hdom2.
  rewrite Hfix in Hdom1, Hdom2.
  auto.
Qed.

Lemma X13_slider_positions_displayed_witness :
  let w := run (mount webglBrowser) [Elapse 500; RunTimers] in
  let v := Number.parseFloat (threeDecimals 50) in
  inRange v = true
  /\ rotationSpeedRef (step w (SliderChange (sliderValue 50))) = v
  /\ rotationSpeedRef (step w (SliderChange (threeDecimals 50))) = v
  /\ dom (step w (SliderChange (sliderValue 50))) =
     Some (MainView (isLoading w) v (Some (threeDecimals 50)))
  /\ dom (step w (SliderChange (threeDecimals 50))) =
     Some (MainView (isLoading w) v (Some (threeDecimals 50))).
Proof.
  apply (X13_slider_positions_displayed webglBrowser [Elapse 500; RunTimers] 50).
  - reflexivity.
  - repeat constructor.
  - lia.
Defined.

(** *** Who owns the listeners and the canvas *)

Lemma Stable_Owned :
  Stable (fun w => isSome (scope w) = true /\ isSome (rendererRef w) = true /\ Owned w).
Proof.
  unfold Owned. stable_by ltac:(intuition (auto; discriminate)).
Qed.

Lemma Owned_step w e :
  isSome (scope w) = true /\ isSome (rendererRef w) = true /\ Owned w ->
  isSome (scope (step w e)) = true /\ isSome (rendererRef (step w e)) = true
  /\ Owned (step w e).
Proof.
  revert w e.
  apply (Stable_every_event
           (fun w => isSome (scope w) = true /\ isSome (rendererRef w) = true /\ Owned w)).
  - apply Stable_Owned.
  - intros value w. unfold Owned, onSpeedChange, forceUpdate, setState.
    world_cases w; intuition (auto; discriminate).
  - intros w. unfold Owned, unmount.
    world_cases w; try (intuition (auto; discriminate)).
    intros (_ & _ & Hl & Hc). subst. repeat split.
Qed.

Lemma Owned_reachable host history :
  isWebGLAvailable host = Js.Normal true -> Owned (run (mount host) history).
Proof.
  intros Hp.
  apply (run_invariant
           (fun w => isSome (scope w) = true /\ isSome (rendererRef w) = true /\ Owned w)
           Owned_step).
  unfold mount, mountEffect. rewrite Hp. repeat split.
Qed.

Lemma listeners_reachable host history :
  let w := run (mount host) history in
  listeners w = (if andb (mounted w) (webglSupported w) then effectListeners else [])
  /\ canvasAttached w = andb (mounted w) (webglSupported w).
Proof.
  intros w. destruct (isWebGLAvailable host) as [[|]|] eqn:Hp.
  - destruct (Owned_reachable host history Hp) as [Hl Hc]. fold w in Hl, Hc.
    pose proof (supported_reachable host history Hp) as Hsup. fold w in Hsup.
    rewrite Hsup, andb_true_r. auto.
  - destruct (Inert_run history _ (Inert_mount host Hp)) as [_ Hc _ Hl _ _ Hsup _ _ _ _].
    fold w in Hc, Hl, Hsup. rewrite Hsup, andb_false_r. auto.
  - destruct (probe_never_throws host Hp).
Qed.

(** X14. The listeners and the canvas belong to the mounted widget.  For
    every host and after any events, the nine listeners of the effect
    (four mouse, four touch, one resize), in the order of their
    registration and each once, are registered exactly while the widget
    is mounted with WebGL supported, and none otherwise; the canvas is
    in the page under exactly the same condition.  No event adds a
    listener, removes one early or registers one twice. *)
Theorem X14_listeners_while_mounted (host : Host.t) (history : list Event) :
  let w := run (mount host) history in
  listeners w = (if andb (mounted w) (webglSupported w) then effectListeners else [])
  /\ canvasAttached w = andb (mounted w) (webglSupported w).
Proof.
  apply listeners_reachable.
Qed.

Lemma filter_none (A : Type) (f : A -> bool) (l : list A) :
  existsb f l = false -> filter f l = [].
Proof.
  induction l as [|a l IH]; cbn; [reflexivity|].
  destruct (f a); cbn; [discriminate | exact IH].
Qed.

(** X15. The widget reacts to nothing it did not register for.  For
    every host and in every reachable state, a mouse or touch event on
    the container of a type other than mousedown, mouseup, mousemove,
    mouseleave, touchstart, touchmove, touchend and touchcancel (a click,
    a wheel or key event, ...), and a window event other than resize,
    leave the whole state exactly as it is. *)
Theorem X15_unregistered_events_ignored
    (host : Host.t) (history : list Event) (e : Event) :
  unheard e = true ->
  let w := run (mount host) history in
  step w e = w.
Proof.
  intros He w.
  destruct (listeners_reachable host history) as [Hl _]. fold w in Hl.
  assert (Hnone : forall tg ty,
             existsb (listens tg ty) effectListeners = false ->
             filter (listens tg ty) (listeners w) = []).
  { intros tg ty Hex. rewrite Hl. destruct (andb _ _); [|reflexivity].
    apply filter_none, Hex. }
  destruct e as [ty ev|ty ev|ty|cw ch|ms| | |value|]; try discriminate;
    cbn [unheard] in He; apply negb_true_iff in He;
    cbn [step]; unfold dispatch; rewrite (Hnone _ _ He); reflexivity.
Qed.

Lemma X15_unregistered_events_ignored_witness :
  let w := run (mount webglBrowser) [press ByMouse (mkPosition 3 4)] in
  step w (Mouse "click" (mkMouseEvent 3 4)) = w.
Proof.
  apply (X15_unregistered_events_ignored webglBrowser [press ByMouse (mkPosition 3 4)]).
  reflexivity.
Defined.

(** *** Dragging while the cube turns *)

Lemma LoopOn_in_scope f w : LoopOn w -> LoopOn (in_scope f w).
Proof.
  intros ([s Hs] & [r Hr] & Hq). unfold LoopOn, in_scope. rewrite Hs. cbn. eauto.
Qed.

Lemma move_not_slider d p : isSliderChange (move d p) = false.
Proof. destruct d; reflexivity. Qed.

Lemma press_not_slider d p : isSliderChange (press d p) = false.
Proof. destruct d; reflexivity. Qed.

(** Moves and frames, from a state where the drag is on and the loop
    runs. *)
Lemma run_turns steps : forall w,
  forallb moveOrFrame steps = true -> Live w -> LoopOn w -> dragging w = true ->
  Live (run w (map eventOf steps))
  /\ Three.y (rotation (run w (map eventOf steps))) =
     addAll (Three.y (rotation w)) (turns (rotationSpeedRef w) (anchor w) steps).
Proof.
  induction steps as [|[d p|e] steps IH]; intros w Hq Hw Hloop Hd.
  - cbn. auto.
  - cbn [map eventOf turns forallb moveOrFrame andb] in *.
    rewrite run_cons.
    destruct (moved d p w Hw Hd) as (Hw1 & Hd1 & Ha1 & _ & Hy1).
    assert (Hloop1 : LoopOn (step w (move d p))).
    { rewrite (step_move d p w Hw). apply LoopOn_in_scope, Hloop. }
    destruct (IH _ Hq Hw1 Hloop1 Hd1) as (Hw' & Hy').
    rewrite Ha1, Hy1, (speed_step w _ (move_not_slider d p)) in Hy'.
    split; [exact Hw' | exact Hy'].
  - destruct e; try discriminate.
    cbn [map eventOf turns forallb moveOrFrame andb] in *.
    rewrite run_cons.
    destruct (LoopOn_frame w Hloop) as (Hloop1 & Hv1 & Hy1 & _).
    destruct (quiet_step w AnimationFrame eq_refl) as (_ & Hd1 & Ha1).
    destruct (IH (step w AnimationFrame) Hq) as (Hw' & Hy').
    + apply Live_step; [reflexivity | exact Hw].
    + exact Hloop1.
    + congruence.
    + cbn zeta in Hv1, Hy1. rewrite Ha1, Hy1, Hv1 in Hy'.
      split; [exact Hw' | exact Hy'].
Qed.

(** X16. Dragging and auto-rotation add up.  While the loop runs, a drag
    (pressed, moved and released with either device) whose moves are
    interleaved with animation frames leaves in the Y rotation its old
    value with one term added per event, in the order of the events:
    [(current X - previous X) * 0.01] for a move of the pointer, the
    speed for a frame.  Neither writer waits for the other or overwrites
    what the other added, and a frame does not shift the position from
    which the next move is measured. *)
Theorem X16_drag_and_frames_add_up
    (host : Host.t) (history : list Event)
    (d : Device) (start : Position) (steps : list DragStep)
    (d' : Device) (how : Ending) (last_position : Position) :
  isWebGLAvailable host = Js.Normal true ->
  staysMounted history ->
  forallb moveOrFrame steps = true ->
  let w := run (mount host) history in
  let w' := run w (interleavedDrag d start steps d' how last_position) in
  isLoading w = false ->
  Three.y (rotation w') =
    addAll (Three.y (rotation w)) (turns (rotationSpeedRef w) start steps).
Proof.
  intros Hp Hh Hq w w' Hld.
  pose proof (Live_reachable host history Hp Hh) as Hw. fold w in Hw.
  pose proof (LoopOn_reachable host history Hp Hh Hld) as Hloop. fold w in Hloop.
  subst w'. unfold interleavedDrag. rewrite run_cons, run_app.
  destruct (pressed d start w Hw) as (Hw1 & Hd1 & Ha1 & Hr1).
  assert (Hloop1 : LoopOn (step w (press d start))).
  { rewrite (step_press d start w Hw). apply LoopOn_in_scope, Hloop. }
  destruct (run_turns steps _ Hq Hw1 Hloop1 Hd1) as (Hw2 & Hy2).
  rewrite Ha1, Hr1, (speed_step w _ (press_not_slider d start)) in Hy2.
  cbn [run fold_left].
  destruct (let_go d' how last_position _ Hw2) as (_ & _ & _ & Hr3).
  unfold run in *. rewrite Hr3. exact Hy2.
Qed.

Lemma X16_drag_and_frames_add_up_witness :
  let steps := [Moved ByMouse (mkPosition 20 30); Meanwhile AnimationFrame;
                Meanwhile AnimationFrame; Moved ByTouch (mkPosition 45 80)] in
  let w := run (mount webglBrowser) [Elapse 500; RunTimers; SliderChange "0.05"] in
  let w' := run w (interleavedDrag ByMouse (mkPosition 10 10) steps ByMouse Lifted
                                   (mkPosition 45 80)) in
  Three.y (rotation w') =
    addAll (Three.y (rotation w)) (turns (rotationSpeedRef w) (mkPosition 10 10) steps).
Proof.
  apply (X16_drag_and_frames_add_up webglBrowser
           [Elapse 500; RunTimers; SliderChange "0.05"]).
  - reflexivity.
  - repeat constructor.
  - reflexivity.
  - reflexivity.
Defined.
